(** * languagemodels/models.py: model selection, memory budget and model cache

    A shallow embedding of [languagemodels/models.py] and the properties of
    its selection policy ([get_model_name]), its budget configuration
    ([set_max_ram], [get_max_ram], [convert_to_gb]) and its process-wide
    cache ([get_model]).

    Conventions of the embedding:
    - a Python [float] is a primitive binary64 float of Rocq ([PrimFloat]),
      with the same IEEE 754 operations and comparisons;
    - a Python [str] is a [string] (ASCII text; characters outside ASCII are
      outside the model);
    - the module globals [max_ram], [license_match] and [modelcache] are
      fields of a record [state] threaded through every call, which returns
      a result-or-exception together with the new state;
    - the external collaborators (the hub download, the tokenizer library and
      the ctranslate2 runtime) are a record [externals] of outcome functions,
      one per call the source makes; every call is logged in a trace. *)

From Stdlib Require Import List String Ascii ZArith Bool Lia Floats.
Import ListNotations.

Set Warnings "-inexact-float".

Local Open Scope string_scope.
Local Open Scope list_scope.

(** ** Python strings *)

Module PyStr.

Definition is_upper (c : ascii) : bool :=
  (65 <=? nat_of_ascii c)%nat && (nat_of_ascii c <=? 90)%nat.

Definition lower_ascii (c : ascii) : ascii :=
  if is_upper c then ascii_of_nat (nat_of_ascii c + 32) else c.

(** [s.lower()] *)
Fixpoint lower (s : string) : string :=
  match s with
  | EmptyString => EmptyString
  | String c s' => String (lower_ascii c) (lower s')
  end.

(** [sub in s] *)
Fixpoint contains (sub s : string) : bool :=
  prefix sub s ||
  match s with
  | EmptyString => false
  | String _ s' => contains sub s'
  end.

(** [s.rstrip(chars)] for a one-character [chars]: every trailing
    occurrence of [c] is removed. *)
Fixpoint rstrip (c : ascii) (s : string) : string :=
  match s with
  | EmptyString => EmptyString
  | String a s' =>
      match rstrip c s' with
      | EmptyString => if Ascii.eqb a c then EmptyString else String a EmptyString
      | r => String a r
      end
  end.

(** [s[-1]]; [None] stands for the IndexError of the empty string. *)
Fixpoint last (s : string) : option ascii :=
  match s with
  | EmptyString => None
  | String a EmptyString => Some a
  | String _ s' => last s'
  end.

(** [s[:-1]] *)
Fixpoint init (s : string) : string :=
  match s with
  | EmptyString => EmptyString
  | String _ EmptyString => EmptyString
  | String a s' => String a (init s')
  end.

(** [s[:-n]] for [n > 0]: the string without its last [n] characters. *)
Definition drop_last (n : nat) (s : string) : string :=
  substring 0 (String.length s - n) s.

(** [c * n] for a one-character string. *)
Fixpoint repeat (c : ascii) (n : nat) : string :=
  match n with
  | O => EmptyString
  | S n' => String c (repeat c n')
  end.

End PyStr.

(** ** Python floats *)

Module PyFloat.

Local Open Scope Z_scope.

(** Correctly rounded (to nearest, ties to even) binary64 value of
    [(-1)^neg * m * 10^e10], as computed by [float(str)]. *)
Definition of_decimal (neg : bool) (m : Z) (e10 : Z) : spec_float :=
  match m with
  | Z0 => S754_zero neg
  | Zpos p =>
      match e10 with
      | Zneg k =>
          let '(q, e, l) :=
            SFdiv_core_binary prec emax (Zpos p) 0 (Zpos (Pos.pow 10 k)) 0 in
          binary_round_aux prec emax neg q e l
      | _ =>
          match Zpos p * 10 ^ e10 with
          | Zpos n => binary_round prec emax neg n 0
          | _ => S754_nan
          end
      end
  | Zneg _ => S754_nan
  end.

(** [float(z)] for a Python [int]: the nearest binary64 value, or [None]
    for the OverflowError of an int too large for a float. *)
Definition of_int (z : Z) : option float :=
  match binary_normalize prec emax z 0 false with
  | S754_infinity _ => None
  | sf => Some (SF2Prim sf)
  end.

(** Characters that [float(str)] strips from both ends: tab, newline,
    vertical tab, form feed, carriage return and space. *)
Definition is_space (c : ascii) : bool :=
  let n := nat_of_ascii c in
  ((9 <=? n)%nat && (n <=? 13)%nat) || (n =? 32)%nat.

Fixpoint lstrip (s : string) : string :=
  match s with
  | EmptyString => EmptyString
  | String a s' => if is_space a then lstrip s' else s
  end.

Fixpoint rstrip (s : string) : string :=
  match s with
  | EmptyString => EmptyString
  | String a s' =>
      match rstrip s' with
      | EmptyString => if is_space a then EmptyString else String a EmptyString
      | r => String a r
      end
  end.

Definition strip (s : string) : string := rstrip (lstrip s).

(** Lexical classes of the grammar of [float(str)]. *)
Inductive cclass :=
| CDigit (d : Z)
| CDot
| CExp
| CSign (neg : bool)
| CUnderscore
| COther.

Definition classify (c : ascii) : cclass :=
  let n := nat_of_ascii c in
  if ((48 <=? n)%nat && (n <=? 57)%nat) then CDigit (Z.of_nat (n - 48))
  else if (n =? 46)%nat then CDot
  else if ((n =? 101)%nat || (n =? 69)%nat) then CExp
  else if (n =? 43)%nat then CSign false
  else if (n =? 45)%nat then CSign true
  else if (n =? 95)%nat then CUnderscore
  else COther.

(** Positions in
    [floatnumber ::= ([digitpart] "." digitpart | digitpart ["."]) [exponent]],
    [digitpart ::= digit (["_"] digit)*],
    [exponent ::= ("e" | "E") [sign] digitpart]. *)
Inductive phase :=
| Start | IntDigits | IntUnderscore | DotNoInt | FracStart | FracDigits
| FracUnderscore | ExpStart | ExpSign | ExpDigits | ExpUnderscore.

Record scan := {
  sc_phase : phase;
  sc_mant : Z;      (* the digits of the mantissa read so far *)
  sc_frac : Z;      (* how many of them follow the point *)
  sc_eneg : bool;   (* sign of the exponent *)
  sc_exp : Z        (* the digits of the exponent read so far *)
}.

Definition scan0 : scan :=
  {| sc_phase := Start; sc_mant := 0; sc_frac := 0; sc_eneg := false; sc_exp := 0 |}.

Definition with_phase (p : phase) (s : scan) : scan :=
  {| sc_phase := p; sc_mant := sc_mant s; sc_frac := sc_frac s;
     sc_eneg := sc_eneg s; sc_exp := sc_exp s |}.

Definition int_digit (d : Z) (s : scan) : scan :=
  {| sc_phase := IntDigits; sc_mant := 10 * sc_mant s + d; sc_frac := sc_frac s;
     sc_eneg := sc_eneg s; sc_exp := sc_exp s |}.

Definition frac_digit (d : Z) (s : scan) : scan :=
  {| sc_phase := FracDigits; sc_mant := 10 * sc_mant s + d; sc_frac := sc_frac s + 1;
     sc_eneg := sc_eneg s; sc_exp := sc_exp s |}.

Definition exp_digit (d : Z) (s : scan) : scan :=
  {| sc_phase := ExpDigits; sc_mant := sc_mant s; sc_frac := sc_frac s;
     sc_eneg := sc_eneg s; sc_exp := 10 * sc_exp s + d |}.

Definition exp_sign (neg : bool) (s : scan) : scan :=
  {| sc_phase := ExpSign; sc_mant := sc_mant s; sc_frac := sc_frac s;
     sc_eneg := neg; sc_exp := sc_exp s |}.

Definition step (s : scan) (c : ascii) : option scan :=
  match sc_phase s, classify c with
  | Start, CDigit d => Some (int_digit d s)
  | Start, CDot => Some (with_phase DotNoInt s)
  | IntDigits, CDigit d => Some (int_digit d s)
  | IntDigits, CUnderscore => Some (with_phase IntUnderscore s)
  | IntDigits, CDot => Some (with_phase FracStart s)
  | IntDigits, CExp => Some (with_phase ExpStart s)
  | IntUnderscore, CDigit d => Some (int_digit d s)
  | DotNoInt, CDigit d => Some (frac_digit d s)
  | FracStart, CDigit d => Some (frac_digit d s)
  | FracStart, CExp => Some (with_phase ExpStart s)
  | FracDigits, CDigit d => Some (frac_digit d s)
  | FracDigits, CUnderscore => Some (with_phase FracUnderscore s)
  | FracDigits, CExp => Some (with_phase ExpStart s)
  | FracUnderscore, CDigit d => Some (frac_digit d s)
  | ExpStart, CSign neg => Some (exp_sign neg s)
  | ExpStart, CDigit d => Some (exp_digit d s)
  | ExpSign, CDigit d => Some (exp_digit d s)
  | ExpDigits, CDigit d => Some (exp_digit d s)
  | ExpDigits, CUnderscore => Some (with_phase ExpUnderscore s)
  | ExpUnderscore, CDigit d => Some (exp_digit d s)
  | _, _ => None
  end.

Fixpoint run (s : scan) (l : string) : option scan :=
  match l with
  | EmptyString => Some s
  | String c l' =>
      match step s c with
      | Some s' => run s' l'
      | None => None
      end
  end.

Definition accepting (p : phase) : bool :=
  match p with
  | IntDigits | FracStart | FracDigits | ExpDigits => true
  | _ => false
  end.

(** [floatnumber] without sign. *)
Definition floatnumber (neg : bool) (l : string) : option spec_float :=
  match run scan0 l with
  | Some s =>
      if accepting (sc_phase s) then
        let e := if sc_eneg s then - sc_exp s else sc_exp s in
        Some (of_decimal neg (sc_mant s) (e - sc_frac s))
      else None
  | None => None
  end.

(** [absfloatvalue ::= floatnumber | infinity | nan], case-insensitive. *)
Definition absfloatvalue (neg : bool) (l : string) : option spec_float :=
  let w := PyStr.lower l in
  if String.eqb w "inf" || String.eqb w "infinity" then Some (S754_infinity neg)
  else if String.eqb w "nan" then Some S754_nan
  else floatnumber neg l.

(** [float(s)] for a string: [None] stands for the ValueError. *)
Definition of_string (s : string) : option float :=
  let r :=
    match strip s with
    | String c l =>
        match classify c with
        | CSign neg => absfloatvalue neg l
        | _ => absfloatvalue false (String c l)
        end
    | EmptyString => None
    end in
  option_map SF2Prim r.

(** [bool(x)]: zero (of either sign) is falsy, everything else, NaN
    included, is truthy. *)
Definition truthy (x : float) : bool := negb (PrimFloat.eqb x 0%float).

End PyFloat.

(** ** Regular expressions: the fragment of [re] used for license filters

    A license filter is a pattern handed to [re.match].  [regex] is the
    abstract syntax of the regular fragment (literals, [.], [*], [+], [?],
    [|]), and [re_compile] reads the concrete syntax of that fragment; it
    gives [None] for a string outside the fragment, whether [re] rejects the
    string or accepts it.  The functions below that take an [option regex]
    are the source's on a filter already compiled; the functions named
    [..._src] further down take the filter as the string it is and carry the
    [re.error] of a pattern that [re] rejects. *)

Module Re.

Inductive regex :=
| Void                        (* matches no string *)
| Eps                         (* the empty pattern *)
| Chr (c : ascii)
| Any                         (* [.]: any character but a newline *)
| Cat (r1 r2 : regex)
| Alt (r1 r2 : regex)
| Star (r : regex).

Definition Plus (r : regex) : regex := Cat r (Star r).
Definition Opt (r : regex) : regex := Alt r Eps.

Fixpoint nullable (r : regex) : bool :=
  match r with
  | Void => false
  | Eps => true
  | Chr _ => false
  | Any => false
  | Cat r1 r2 => nullable r1 && nullable r2
  | Alt r1 r2 => nullable r1 || nullable r2
  | Star _ => true
  end.

(** Brzozowski derivative: the patterns of the rests after reading [a]. *)
Fixpoint deriv (a : ascii) (r : regex) : regex :=
  match r with
  | Void => Void
  | Eps => Void
  | Chr c => if Ascii.eqb a c then Eps else Void
  | Any => if Ascii.eqb a "010"%char then Void else Eps
  | Cat r1 r2 =>
      if nullable r1
      then Alt (Cat (deriv a r1) r2) (deriv a r2)
      else Cat (deriv a r1) r2
  | Alt r1 r2 => Alt (deriv a r1) (deriv a r2)
  | Star r1 => Cat (deriv a r1) (Star r1)
  end.

(** Truth value of [re.match(r, s)]: some prefix of [s] matches [r]. *)
Fixpoint re_match_from (s : string) (r : regex) : bool :=
  nullable r ||
  match s with
  | EmptyString => false
  | String a s' => re_match_from s' (deriv a r)
  end.

Definition re_match (r : regex) (s : string) : bool := re_match_from s r.

(** Reader of the concrete syntax.  [rp_alts] holds the finished branches
    of a [|], [rp_seq] the finished atoms of the current branch, [rp_last]
    the atom a quantifier would apply to, [rp_quant] whether it already
    carries one. *)
Record rparse := {
  rp_alts : option regex;
  rp_seq : regex;
  rp_last : option regex;
  rp_quant : bool
}.

Definition flush (p : rparse) : regex :=
  match rp_last p with
  | Some a => Cat (rp_seq p) a
  | None => rp_seq p
  end.

Definition branches (p : rparse) : regex :=
  match rp_alts p with
  | Some r => Alt r (flush p)
  | None => flush p
  end.

Definition push (a : regex) (p : rparse) : rparse :=
  {| rp_alts := rp_alts p; rp_seq := flush p; rp_last := Some a; rp_quant := false |}.

Definition quantify (q : regex -> regex) (p : rparse) : option rparse :=
  match rp_last p, rp_quant p with
  | Some a, false =>
      Some {| rp_alts := rp_alts p; rp_seq := rp_seq p;
              rp_last := Some (q a); rp_quant := true |}
  | _, _ => None
  end.

Definition is_special (c : ascii) : bool :=
  existsb (Ascii.eqb c)
    ["\"; "("; ")"; "["; "]"; "{"; "}"; "^"; "$"]%char.

Definition rstep (p : rparse) (c : ascii) : option rparse :=
  if Ascii.eqb c "*" then quantify Star p
  else if Ascii.eqb c "+" then quantify Plus p
  else if Ascii.eqb c "?" then quantify Opt p
  else if Ascii.eqb c "|" then
    Some {| rp_alts := Some (branches p); rp_seq := Eps;
            rp_last := None; rp_quant := false |}
  else if Ascii.eqb c "." then Some (push Any p)
  else if is_special c then None
  else Some (push (Chr c) p).

Fixpoint rrun (p : rparse) (s : string) : option rparse :=
  match s with
  | EmptyString => Some p
  | String c s' =>
      match rstep p c with
      | Some p' => rrun p' s'
      | None => None
      end
  end.

Definition re_compile (s : string) : option regex :=
  option_map branches
    (rrun {| rp_alts := None; rp_seq := Eps; rp_last := None; rp_quant := false |} s).

End Re.

(** ** Exceptions and results *)

Inductive exn :=
| ModelException (msg : string)
| AssertionError
| AttributeError
| IndexError
| KeyError
| ValueError
| OverflowError
| ExternalError (what : string).   (* any other failure of a collaborator *)

Inductive result (A : Type) :=
| Return (a : A)
| Raise (e : exn).

Arguments Return {A} a.
Arguments Raise {A} e.

(** ** The model list *)

Record model_descr := {
  name : string;
  tuning : string;
  datasets : list string;       (* [[]] where the source has no such key *)
  params : float;
  quantization : string;
  architecture : string;
  license : string
}.

Definition mk (n t : string) (d : list string) (p : float) (a l : string) : model_descr :=
  {| name := n; tuning := t; datasets := d; params := p;
     quantization := "int8"; architecture := a; license := l |}.

(** This list is sorted in priority order, with the best models first. *)
Definition models : list model_descr := [
  mk "flan-alpaca-xl-ct2-int8" "instruct" ["c4"; "flan"; "alpaca"] 3e9
     "encoder-decoder-transformer" "cc-by-nc-4.0";
  mk "flan-alpaca-gpt4-xl-ct2-int8" "instruct" ["c4"; "flan"; "gpt4-alpaca"] 3e9
     "encoder-decoder-transformer" "cc-by-nc-4.0";
  mk "flan-t5-xl-ct2-int8" "instruct" ["c4"; "flan"] 3e9
     "encoder-decoder-transformer" "apache-2.0";
  mk "fastchat-t5-3b-v1.0-ct2-int8" "instruct" ["c4"; "flan"; "sharegpt"] 3e9
     "encoder-decoder-transformer" "apache-2.0";
  mk "LaMini-Flan-T5-783M-ct2-int8" "instruct" ["c4"; "flan"; "lamini"] 783e6
     "encoder-decoder-transformer" "cc-by-nc-4.0";
  mk "flan-t5-large-ct2-int8" "instruct" ["c4"; "flan"] 783e6
     "encoder-decoder-transformer" "apache-2.0";
  mk "LaMini-Flan-T5-248M-ct2-int8" "instruct" ["c4"; "flan"; "lamini"] 248e6
     "encoder-decoder-transformer" "cc-by-nc-4.0";
  mk "flan-alpaca-base-ct2-int8" "instruct" ["c4"; "flan"; "alpaca"] 248e6
     "encoder-decoder-transformer" "cc-by-nc-4.0";
  mk "flan-t5-base-ct2-int8" "instruct" ["c4"; "flan"] 248e6
     "encoder-decoder-transformer" "apache-2.0";
  mk "LaMini-Flan-T5-77M-ct2-int8" "instruct" ["c4"; "flan"; "lamini"] 77e6
     "encoder-decoder-transformer" "cc-by-nc-4.0";
  mk "flan-t5-small-ct2-int8" "instruct" ["c4"; "flan"] 77e6
     "encoder-decoder-transformer" "apache-2.0";
  mk "LaMini-GPT-774M-ct2-int8" "instruct" ["webtext"; "lamini"] 774e6
     "decoder-only-transformer" "mit";
  mk "LaMini-GPT-124M-ct2-int8" "instruct" ["webtext"; "lamini"] 124e6
     "decoder-only-transformer" "mit";
  mk "all-MiniLM-L6-v2-ct2-int8" "embedding" [] 22e6
     "encoder-only-transformer" "apache-2.0"
].

(** ** Process environment: [os.environ.get] *)

Definition environ := string -> option string.

Definition no_environ : environ := fun _ => None.

(** Truthiness of [os.environ.get(k)]: set and not empty. *)
Definition str_truthy (v : option string) : bool :=
  match v with
  | Some s => negb (String.eqb s "")
  | None => false
  end.

(** ** Selection: [get_model_name] *)

(** [memsize = model["params"] / 1e9] *)
Definition memsize (model : model_descr) : float := (params model / 1e9)%float.

(** [sizefit = memsize < max_ram] *)
Definition sizefit (max_ram : float) (model : model_descr) : bool :=
  (memsize model <? max_ram)%float.

(** [licensematch = not license_match or re.match(license_match, model["license"])]
    for a filter that compiles; [None] is a falsy filter: Python's [None], or
    the empty string, whose compiled form [Eps] matches every license all
    the same.  [licensematch_src] is the same line on a string, with the
    [re.error] this one cannot raise. *)
Definition licensematch (license_match : option Re.regex) (model : model_descr) : bool :=
  match license_match with
  | None => true
  | Some r => Re.re_match r (license model)
  end.

(** The condition of the [if] in the loop. *)
Definition selectable (model_type : string) (max_ram : float)
    (license_match : option Re.regex) (model : model_descr) : bool :=
  String.eqb (tuning model) model_type && sizefit max_ram model
  && licensematch license_match model.

(** The [for model in models] loop with the final [raise]. *)
Fixpoint scan_models (model_type : string) (max_ram : float)
    (license_match : option Re.regex) (l : list model_descr) : result string :=
  match l with
  | [] => Raise (ModelException ("No valid model found for " ++ model_type)%string)
  | model :: rest =>
      if negb (String.eqb (quantization model) "int8") then Raise AssertionError
      else if selectable model_type max_ram license_match model
           then Return (name model)
           else scan_models model_type max_ram license_match rest
  end.

Definition get_model_name (env : environ) (model_type : string) (max_ram : float)
    (license_match : option Re.regex) : result string :=
  if str_truthy (env "LANGUAGEMODELS_INSTRUCT_MODEL") && String.eqb model_type "instruct"
  then match env "LANGUAGEMODELS_INSTRUCT_MODEL" with
       | Some pinned => Return pinned
       | None => Raise KeyError
       end
  else scan_models model_type max_ram license_match models.

(** ** Process state and the monad of the module's functions *)

Inductive runtime_kind := Encoder | Generator | Translator.

(** A ctranslate2 model object: its identity, its class and the directory it
    was built from.  Whether its weights are loaded is runtime state
    ([resident] below), changed by [unload_model] and [load_model]. *)
Record handle := {
  h_id : nat;
  h_kind : runtime_kind;
  h_path : string
}.

Inductive tokenizer_origin :=
| from_pretrained (repo : string)
| from_file (path : string).

Record tokenizer := {
  tk_origin : tokenizer_origin;
  tk_no_padding : bool;        (* [no_padding()] was called *)
  tk_no_truncation : bool      (* [no_truncation()] was called *)
}.

(** The tuple [(tokenizer, model)] stored in [modelcache]; [None] is Python's
    [None]. *)
Definition cache_entry : Type := tokenizer * option handle.

(** Calls made to the collaborators, in the order they are made. *)
Inductive event :=
| Download (repo file : string)
| TokenizerFromPretrained (repo : string)
| TokenizerFromFile (path : string)
| Construct (k : runtime_kind) (path : string)
| UnloadModel (key : string) (h : option handle)
| LoadModel (key : string) (h : option handle).

Record state := {
  modelcache : list (string * cache_entry);   (* a dict, in insertion order *)
  max_ram : float;
  license_match : option Re.regex;
  next_id : nat;            (* runtime: number of model objects built so far *)
  resident : list nat;      (* runtime: ids of the objects holding their weights *)
  trace : list event
}.

(** Module initialisation: [modelcache = {}], [max_ram = 512] and
    [license_match] read from LANGUAGEMODELS_MODEL_LICENSE.  The int [512]
    is the float of the same value: both are truthy and compare alike. *)
Definition initial_state (env_license : option Re.regex) : state :=
  {| modelcache := []; max_ram := 512%float; license_match := env_license;
     next_id := 0; resident := []; trace := [] |}.

Definition M (A : Type) : Type := state -> result A * state.

Definition ret {A} (a : A) : M A := fun s => (Return a, s).

Definition raise {A} (e : exn) : M A := fun s => (Raise e, s).

Definition bind {A B} (m : M A) (k : A -> M B) : M B :=
  fun s =>
    match m s with
    | (Return a, s') => k a s'
    | (Raise e, s') => (Raise e, s')
    end.

Definition lift {A} (r : result A) : M A := fun s => (r, s).

Definition gets {A} (f : state -> A) : M A := fun s => (Return (f s), s).

Definition modify (f : state -> state) : M unit := fun s => (Return tt, f s).

(** [try: m except AttributeError: pass] *)
Definition except_AttributeError (m : M unit) : M unit :=
  fun s =>
    match m s with
    | (Raise AttributeError, s') => (Return tt, s')
    | r => r
    end.

Declare Scope py_scope.
Delimit Scope py_scope with py.
Notation "x <- m ;; k" := (bind m (fun x => k))
  (at level 61, m at next level, right associativity) : py_scope.
Notation "m ;;; k" := (bind m (fun _ => k))
  (at level 61, right associativity) : py_scope.
Local Open Scope py_scope.

Definition set_modelcache (c : list (string * cache_entry)) (s : state) : state :=
  {| modelcache := c; max_ram := max_ram s; license_match := license_match s;
     next_id := next_id s; resident := resident s; trace := trace s |}.

Definition set_max_ram_field (x : float) (s : state) : state :=
  {| modelcache := modelcache s; max_ram := x; license_match := license_match s;
     next_id := next_id s; resident := resident s; trace := trace s |}.

Definition set_license_match (r : option Re.regex) (s : state) : state :=
  {| modelcache := modelcache s; max_ram := max_ram s; license_match := r;
     next_id := next_id s; resident := resident s; trace := trace s |}.

Definition set_runtime (n : nat) (l : list nat) (s : state) : state :=
  {| modelcache := modelcache s; max_ram := max_ram s; license_match := license_match s;
     next_id := n; resident := l; trace := trace s |}.

Definition log (e : event) (s : state) : state :=
  {| modelcache := modelcache s; max_ram := max_ram s; license_match := license_match s;
     next_id := next_id s; resident := resident s; trace := trace s ++ [e] |}.

(** ** Dictionaries keyed by strings, in insertion order *)

Fixpoint dict_get {V} (k : string) (d : list (string * V)) : option V :=
  match d with
  | [] => None
  | (k', v) :: d' => if String.eqb k k' then Some v else dict_get k d'
  end.

(** [d[k] = v]: replaces the value of an existing key in place, appends a
    new key at the end. *)
Fixpoint dict_set {V} (k : string) (v : V) (d : list (string * V)) : list (string * V) :=
  match d with
  | [] => [(k, v)]
  | (k', v') :: d' =>
      if String.eqb k k' then (k, v) :: d' else (k', v') :: dict_set k v d'
  end.

Definition dict_keys {V} (d : list (string * V)) : list string := map fst d.

(** [k in d] *)
Definition dict_mem {V} (k : string) (d : list (string * V)) : bool :=
  match dict_get k d with
  | Some _ => true
  | None => false
  end.

(** ** Budget configuration *)

(** The arguments [set_max_ram] and [convert_to_gb] accept. *)
Inductive pyval :=
| PInt (z : Z)
| PFloat (x : float)
| PStr (s : string).

(** [multipliers = {"g": 1.0, "m": 2 ** -10}] *)
Definition multipliers (c : ascii) : option float :=
  if Ascii.eqb c "g" then Some 1%float
  else if Ascii.eqb c "m" then Some 0.0009765625%float
  else None.

(** [float(s)] raising ValueError. *)
Definition float_of_str (s : string) : result float :=
  match PyFloat.of_string s with
  | Some x => Return x
  | None => Raise ValueError
  end.

Definition convert_to_gb (space : pyval) : result float :=
  match space with
  | PInt z =>
      match PyFloat.of_int z with
      | Some x => Return x
      | None => Raise OverflowError
      end
  | PFloat x => Return x
  | PStr space =>
      let space := PyStr.lower space in
      let space := PyStr.rstrip "b" space in
      match PyStr.last space with
      | None => Raise IndexError
      | Some c =>
          match multipliers c with
          | Some mult =>
              match float_of_str (PyStr.init space) with
              | Return x => Return (x * mult)%float
              | Raise e => Raise e
              end
          | None => float_of_str space
          end
      end
  end.

Definition set_max_ram (value : pyval) : M float :=
  x <- lift (convert_to_gb value) ;;
  modify (set_max_ram_field x) ;;;
  gets max_ram.

Definition get_max_ram (env : environ) : M float :=
  cur <- gets max_ram ;;
  if PyFloat.truthy cur then ret cur
  else
    let env := env "LANGUAGEMODELS_SIZE" in
    match env with
    | Some v =>
        if str_truthy env then
          let env := PyStr.lower v in
          if String.eqb env "small" then ret 0.2%float
          else if String.eqb env "base" then ret 0.40%float
          else if String.eqb env "large" then ret 1.0%float
          else if String.eqb env "xl" then ret 4.0%float
          else if String.eqb env "xxl" then ret 16.0%float
          else lift (convert_to_gb (PStr env))
        else ret 0.40%float
    | None => ret 0.40%float
    end.

Definition require_model_license (match_re : option Re.regex) : M unit :=
  modify (set_license_match match_re).

(** ** The collaborators *)

(** What each call to a collaborator does: the path a download returns, or
    the exception a call raises ([None]: it succeeds). *)
Record externals := {
  ext_download : string -> string -> result string;
  ext_from_pretrained : string -> option exn;
  ext_from_file : string -> option exn;
  ext_construct : runtime_kind -> string -> option exn;
  ext_unload : handle -> option exn;
  ext_load : handle -> option exn
}.

Definition hf_hub_download (ext : externals) (repo file : string) : M string :=
  modify (log (Download repo file)) ;;;
  lift (ext_download ext repo file).

Definition outcome (o : option exn) : M unit :=
  match o with
  | None => ret tt
  | Some e => raise e
  end.

Definition Tokenizer_from_pretrained (ext : externals) (repo : string) : M tokenizer :=
  modify (log (TokenizerFromPretrained repo)) ;;;
  outcome (ext_from_pretrained ext repo) ;;;
  ret {| tk_origin := from_pretrained repo;
         tk_no_padding := false; tk_no_truncation := false |}.

Definition Tokenizer_from_file (ext : externals) (path : string) : M tokenizer :=
  modify (log (TokenizerFromFile path)) ;;;
  outcome (ext_from_file ext path) ;;;
  ret {| tk_origin := from_file path;
         tk_no_padding := false; tk_no_truncation := false |}.

Definition no_padding (t : tokenizer) : tokenizer :=
  {| tk_origin := tk_origin t; tk_no_padding := true;
     tk_no_truncation := tk_no_truncation t |}.

Definition no_truncation (t : tokenizer) : tokenizer :=
  {| tk_origin := tk_origin t; tk_no_padding := tk_no_padding t;
     tk_no_truncation := true |}.

(** [ctranslate2.Encoder/Generator/Translator(path, compute_type="int8")]:
    a new object, with its weights loaded. *)
Definition ctranslate2_new (ext : externals) (k : runtime_kind) (path : string) : M handle :=
  modify (log (Construct k path)) ;;;
  outcome (ext_construct ext k path) ;;;
  n <- gets next_id ;;
  modify (fun s => set_runtime (S n) (n :: resident s) s) ;;;
  ret {| h_id := n; h_kind := k; h_path := path |}.

Definition remove_id (n : nat) (l : list nat) : list nat :=
  filter (fun m => negb (Nat.eqb m n)) l.

(** [modelcache[key][1].unload_model()]: on [None] the attribute lookup
    raises AttributeError; on a model object the runtime decides. *)
Definition unload_model (ext : externals) (key : string) : M unit :=
  c <- gets modelcache ;;
  match dict_get key c with
  | None => raise KeyError
  | Some (_, h) =>
      modify (log (UnloadModel key h)) ;;;
      match h with
      | None => raise AttributeError
      | Some h =>
          outcome (ext_unload ext h) ;;;
          modify (fun s => set_runtime (next_id s) (remove_id (h_id h) (resident s)) s)
      end
  end.

(** [modelcache[key][1].load_model()] *)
Definition load_model (ext : externals) (key : string) : M unit :=
  c <- gets modelcache ;;
  match dict_get key c with
  | None => raise KeyError
  | Some (_, h) =>
      modify (log (LoadModel key h)) ;;;
      match h with
      | None => raise AttributeError
      | Some h =>
          outcome (ext_load ext h) ;;;
          modify (fun s =>
                    set_runtime (next_id s)
                      (h_id h :: remove_id (h_id h) (resident s)) s)
      end
  end.

(** ** The cache: [get_model] *)

(** The body of [for model in modelcache:], over the keys of the dict. *)
Fixpoint evict (ext : externals) (model_name : string) (keys : list string) : M unit :=
  match keys with
  | [] => ret tt
  | model :: rest =>
      (if negb (String.eqb model model_name)
       then except_AttributeError (unload_model ext model)
       else ret tt) ;;;
      evict ext model_name rest
  end.

(** The branch the [if]/[elif]/[else] on the lower-cased name takes, named
    by the class of the model it builds. *)
Definition dispatch (model_name : string) : runtime_kind :=
  if PyStr.contains "minilm" (PyStr.lower model_name) then Encoder
  else if PyStr.contains "gpt" (PyStr.lower model_name) then Generator
  else Translator.

(** [if not tokenizer_only: model = ctranslate2.K(...)], [model] being
    [None] before. *)
Definition build_model (ext : externals) (k : runtime_kind) (path : string)
    (tokenizer_only : bool) : M (option handle) :=
  if negb tokenizer_only
  then (h <- ctranslate2_new ext k path ;; ret (Some h))
  else ret None.

Definition store (model_name : string) (e : cache_entry) : M unit :=
  modify (fun s => set_modelcache (dict_set model_name e (modelcache s)) s).

(** The branch [if model_name not in modelcache]. *)
Definition load_fresh (ext : externals) (model_name : string) (tokenizer_only : bool)
    : M unit :=
  let repo := ("jncraton/" ++ model_name)%string in
  hf_hub_download ext repo "config.json" ;;;
  model_path <- hf_hub_download ext repo "model.bin" ;;
  let model_base_path := PyStr.drop_last 10 model_path in
  match dispatch model_name with
  | Encoder =>
      hf_hub_download ext repo "vocabulary.txt" ;;;
      tokenizer <- Tokenizer_from_pretrained ext repo ;;
      let tokenizer := no_padding tokenizer in
      let tokenizer := no_truncation tokenizer in
      model <- build_model ext Encoder model_base_path tokenizer_only ;;
      store model_name (tokenizer, model)
  | Generator =>
      hf_hub_download ext repo "vocabulary.json" ;;;
      tokenizer <- Tokenizer_from_pretrained ext repo ;;
      model <- build_model ext Generator model_base_path tokenizer_only ;;
      store model_name (tokenizer, model)
  | Translator =>
      hf_hub_download ext repo "shared_vocabulary.txt" ;;;
      tok_config <- hf_hub_download ext repo "tokenizer.json" ;;
      tokenizer <- Tokenizer_from_file ext tok_config ;;
      model <- build_model ext Translator model_base_path tokenizer_only ;;
      store model_name (tokenizer, model)
  end.

(** The branch [elif not tokenizer_only]. *)
Definition reload (ext : externals) (model_name : string) : M unit :=
  except_AttributeError (load_model ext model_name).

(** [get_max_ram() < 4 and not tokenizer_only] *)
Definition must_evict (budget : float) (tokenizer_only : bool) : bool :=
  (budget <? 4)%float && negb tokenizer_only.

(** The block [if get_max_ram() < 4 and not tokenizer_only: for ...]. *)
Definition eviction_pass (ext : externals) (model_name : string) (budget : float)
    (tokenizer_only : bool) : M unit :=
  if must_evict budget tokenizer_only
  then (c <- gets modelcache ;; evict ext model_name (dict_keys c))
  else ret tt.

(** The block [if model_name not in modelcache: ... elif not tokenizer_only: ...]. *)
Definition load_or_reload (ext : externals) (model_name : string)
    (tokenizer_only : bool) : M unit :=
  c <- gets modelcache ;;
  if negb (dict_mem model_name c) then load_fresh ext model_name tokenizer_only
  else if negb tokenizer_only then reload ext model_name
  else ret tt.

(** Everything after the name is resolved, down to
    [return modelcache[model_name]]. *)
Definition get_model_named (env : environ) (ext : externals) (model_name : string)
    (tokenizer_only : bool) : M cache_entry :=
  budget <- get_max_ram env ;;
  eviction_pass ext model_name budget tokenizer_only ;;;
  load_or_reload ext model_name tokenizer_only ;;;
  c <- gets modelcache ;;
  match dict_get model_name c with
  | Some e => ret e
  | None => raise KeyError
  end.

(** [model_name = get_model_name(model_type, get_max_ram(), license_match)] *)
Definition resolve (env : environ) (model_type : string) : M string :=
  budget <- get_max_ram env ;;
  lm <- gets license_match ;;
  lift (get_model_name env model_type budget lm).

Definition get_model (env : environ) (ext : externals) (model_type : string)
    (tokenizer_only : bool) : M cache_entry :=
  model_name <- resolve env model_type ;;
  get_model_named env ext model_name tokenizer_only.

(** ** Sequences of calls *)

Inductive call :=
| call_get_model (env : environ) (ext : externals) (model_type : string)
    (tokenizer_only : bool)
| call_set_max_ram (value : pyval)
| call_require_model_license (match_re : option Re.regex).

(** The state a call leaves, whether it returns or raises. *)
Definition exec (c : call) (s : state) : state :=
  match c with
  | call_get_model env ext model_type tokenizer_only =>
      snd (get_model env ext model_type tokenizer_only s)
  | call_set_max_ram value => snd (set_max_ram value s)
  | call_require_model_license match_re => snd (require_model_license match_re s)
  end.

Definition run (cs : list call) (s : state) : state :=
  fold_left (fun s c => exec c s) cs s.

(** The keys whose handle was asked to unload, in order. *)
Fixpoint unload_requests (tr : list event) : list string :=
  match tr with
  | [] => []
  | UnloadModel key _ :: tr' => key :: unload_requests tr'
  | _ :: tr' => unload_requests tr'
  end.


(** ** The vocabulary of the specification *)

Definition pinned_name : string := "LANGUAGEMODELS_INSTRUCT_MODEL".

(** The three conditions of selection: purpose, strict size bound, license. *)
Definition satisfies (purpose : string) (budget : float)
    (licenseFilter : option Re.regex) (d : model_descr) : Prop :=
  tuning d = purpose /\
  (params d / 1e9 <? budget)%float = true /\
  match licenseFilter with
  | None => True
  | Some r => Re.re_match r (license d) = true
  end.

(** The construction path the architecture tag prescribes: Encoder for
    encoder-only, Generator for decoder-only, Translator for
    encoder-decoder. *)
Definition path_of_architecture (a : string) : option runtime_kind :=
  if String.eqb a "encoder-only-transformer" then Some Encoder
  else if String.eqb a "decoder-only-transformer" then Some Generator
  else if String.eqb a "encoder-decoder-transformer" then Some Translator
  else None.

(** The unit suffixes the specification recognises, case-insensitive. *)
Definition recognized_suffixes : list string := ["gb"; "g"; "mb"; "m"; ""].

Definition has_suffix (suf s : string) : bool :=
  (String.length suf <=? String.length s)%nat &&
  String.eqb (substring (String.length s - String.length suf) (String.length suf) s) suf.

(** "A valid number plus an optional recognized suffix". *)
Definition size_string (s : string) : bool :=
  existsb
    (fun suf =>
       has_suffix suf (PyStr.lower s) &&
       match PyFloat.of_string (substring 0 (String.length s - String.length suf) s) with
       | Some _ => true
       | None => false
       end)
    recognized_suffixes.

(** The value [v] of the number [x] followed by the unit letter [u] that is
    left once the trailing [b]s are gone. *)
Definition scaled (u : string) (x v : float) : Prop :=
  (u = "" /\ v = x) \/
  (u = "g" /\ v = (x * 1)%float) \/
  (u = "m" /\ v = (x * 0.0009765625)%float).

(** The letters [convert_to_gb] gives a meaning to. *)
Definition unit_letter (a : ascii) : Prop :=
  a = "b"%char \/ a = "g"%char \/ a = "m"%char.

(** ** Sample collaborators *)

(** A hub that serves every file, a tokenizer library that reads them, and a
    runtime whose Encoder lacks [unload_model] and [load_model]. *)
Definition ext_ok : externals := {|
  ext_download := fun repo file => Return ("/hub/" ++ repo ++ "/" ++ file)%string;
  ext_from_pretrained := fun _ => None;
  ext_from_file := fun _ => None;
  ext_construct := fun _ _ => None;
  ext_unload := fun h => match h_kind h with Encoder => Some AttributeError | _ => None end;
  ext_load := fun h => match h_kind h with Encoder => Some AttributeError | _ => None end
|}.

(** The same, with a runtime whose Translator fails to unload. *)
Definition ext_busy : externals := {|
  ext_download := ext_download ext_ok;
  ext_from_pretrained := ext_from_pretrained ext_ok;
  ext_from_file := ext_from_file ext_ok;
  ext_construct := ext_construct ext_ok;
  ext_unload := fun h =>
    match h_kind h with
    | Encoder => Some AttributeError
    | Translator => Some (ExternalError "busy")
    | Generator => None
    end;
  ext_load := ext_load ext_ok
|}.

(** The descriptor at a position of the list. *)
Definition model_at (i : nat) : model_descr :=
  nth i models (mk "" "" [] 0%float "" "").

(** What the [assert] of the selection loop checks. *)
Definition int8 (d : model_descr) : Prop := quantization d = "int8".

Definition environ_with (k v : string) : environ :=
  fun k' => if String.eqb k' k then Some v else None.

(** A process that set the budget to 0.4 and then asked for the instruct
    model. *)
Definition state_instruct_loaded : state :=
  snd (get_model no_environ ext_ok "instruct" false
         (snd (set_max_ram (PFloat 0.4%float) (initial_state None)))).

(** A process that asked for the tokenizer of the instruct model only. *)
Definition state_tokenizer_only : state :=
  snd (get_model no_environ ext_ok "instruct" true (initial_state None)).

(** ** Relations between the state before and after a computation *)

(** The globals are as they were. *)
Definition frame (s s' : state) : Prop :=
  modelcache s' = modelcache s /\ max_ram s' = max_ram s /\
  license_match s' = license_match s.

(** The globals are as they were, and no unload was asked. *)
Definition quiet (s s' : state) : Prop :=
  frame s s' /\
  exists evs, trace s' = trace s ++ evs /\ unload_requests evs = [].

(** A computation that fails quietly or ends by storing an entry under
    [model_name]. *)
Definition stores_or_fails (model_name : string) (m : M unit) : Prop :=
  forall s,
    (exists e, fst (m s) = Raise e /\ quiet s (snd (m s))) \/
    (fst (m s) = Return tt /\
     exists entry s1,
       quiet s s1 /\
       snd (m s) = set_modelcache (dict_set model_name entry (modelcache s1)) s1).

(** The only way a runtime call fails is the missing capability. *)
Definition capability_only (f : handle -> option exn) : Prop :=
  forall h e, f h = Some e -> e = AttributeError.

(** No unload was asked between [s] and [s']. *)
Definition silent (s s' : state) : Prop :=
  exists evs, trace s' = trace s ++ evs /\ unload_requests evs = [].

Definition runtime_kind_eqb (k1 k2 : runtime_kind) : bool :=
  match k1, k2 with
  | Encoder, Encoder | Generator, Generator | Translator, Translator => true
  | _, _ => false
  end.

(** The branch taken for a descriptor's name is the one its architecture
    tag prescribes. *)
Definition path_agrees (d : model_descr) : bool :=
  match path_of_architecture (architecture d) with
  | Some k => runtime_kind_eqb k (dispatch (name d))
  | None => false
  end.

(** ** Further vocabulary *)

(** The names selection can return when no name is pinned: every name of
    the list but three. *)
Definition selectable_names : list string := [
  "flan-alpaca-xl-ct2-int8"; "flan-t5-xl-ct2-int8";
  "LaMini-Flan-T5-783M-ct2-int8"; "flan-t5-large-ct2-int8";
  "LaMini-Flan-T5-248M-ct2-int8"; "flan-t5-base-ct2-int8";
  "LaMini-Flan-T5-77M-ct2-int8"; "flan-t5-small-ct2-int8";
  "LaMini-GPT-774M-ct2-int8"; "LaMini-GPT-124M-ct2-int8";
  "all-MiniLM-L6-v2-ct2-int8"
].

(** The names selection can return without a license filter. *)
Definition default_names : list string := [
  "flan-alpaca-xl-ct2-int8"; "LaMini-Flan-T5-783M-ct2-int8";
  "LaMini-Flan-T5-248M-ct2-int8"; "LaMini-Flan-T5-77M-ct2-int8";
  "all-MiniLM-L6-v2-ct2-int8"
].

(** The runtime is as it was: no model object was built, loaded or
    unloaded. *)
Definition runtime_kept (s s' : state) : Prop :=
  next_id s' = next_id s /\ resident s' = resident s.

(** The calls that fetch a file, read a tokenizer or build a model. *)
Fixpoint fetches (tr : list event) : list event :=
  match tr with
  | [] => []
  | UnloadModel _ _ :: tr' => fetches tr'
  | LoadModel _ _ :: tr' => fetches tr'
  | e :: tr' => e :: fetches tr'
  end.

(** The tokenizer each branch of [get_model] makes for [model_name], given
    the path the hub returned for [tokenizer.json]. *)
Definition tokenizer_for (model_name tok_config : string) : tokenizer :=
  match dispatch model_name with
  | Encoder =>
      {| tk_origin := from_pretrained ("jncraton/" ++ model_name);
         tk_no_padding := true; tk_no_truncation := true |}
  | Generator =>
      {| tk_origin := from_pretrained ("jncraton/" ++ model_name);
         tk_no_padding := false; tk_no_truncation := false |}
  | Translator =>
      {| tk_origin := from_file tok_config;
         tk_no_padding := false; tk_no_truncation := false |}
  end.

(** The path of [tokenizer.json], where the hub serves it. *)
Definition tok_config_of (ext : externals) (model_name : string) : string :=
  match ext_download ext ("jncraton/" ++ model_name) "tokenizer.json" with
  | Return p => p
  | Raise _ => ""
  end.

(** A hub that cannot be reached. *)
Definition ext_offline : externals := {|
  ext_download := fun _ _ => Raise (ExternalError "offline");
  ext_from_pretrained := ext_from_pretrained ext_ok;
  ext_from_file := ext_from_file ext_ok;
  ext_construct := ext_construct ext_ok;
  ext_unload := ext_unload ext_ok;
  ext_load := ext_load ext_ok
|}.

(** The weights of the model object [h] are loaded. *)
Definition is_resident (h : handle) (s : state) : bool :=
  existsb (Nat.eqb (h_id h)) (resident s).

(** Every model object in the cache was built before now, and no two
    entries hold the same object. *)
Definition handles_known (s : state) : Prop :=
  (forall k t h, dict_get k (modelcache s) = Some (t, Some h) -> h_id h < next_id s) /\
  (forall k1 k2 t1 t2 h1 h2,
      dict_get k1 (modelcache s) = Some (t1, Some h1) ->
      dict_get k2 (modelcache s) = Some (t2, Some h2) ->
      h_id h1 = h_id h2 -> k1 = k2).

(** ** languagemodels.py: [chat] *)

Definition newline : string := String "010"%char EmptyString.

(** The text before and after the user's prompt in the f-string. *)
Definition chat_header : string :=
  ("System: Agent responses will be truthful, helpful, and harmless."
   ++ newline ++ "User: ")%string.

Definition chat_trailer : string := (newline ++ "Agent: ")%string.

(** [prompt = f"System: ...\nUser: {userprompt}\nAgent: "] *)
Definition chat_prompt (userprompt : string) : string :=
  (chat_header ++ userprompt ++ chat_trailer)%string.

(** The module's tokenizer and model: [tokenizer(prompt, return_tensors="pt")],
    [model.generate] with [max_new_tokens] and [repetition_penalty]
    and [tokenizer.batch_decode(outputs, skip_special_tokens=True)]. *)
Record seq2seq (inputs outputs : Type) := {
  tokenize : string -> result inputs;
  generate : inputs -> nat -> float -> result outputs;
  batch_decode : outputs -> result (list string)
}.

Arguments tokenize {inputs outputs} _ _.
Arguments generate {inputs outputs} _ _ _ _.
Arguments batch_decode {inputs outputs} _ _.

Definition chat {inputs outputs : Type} (m : seq2seq inputs outputs)
    (userprompt : string) : result string :=
  let prompt := chat_prompt userprompt in
  match tokenize m prompt with
  | Raise e => Raise e
  | Return inputs =>
      match generate m inputs 128 1.2%float with
      | Raise e => Raise e
      | Return outputs =>
          match batch_decode m outputs with
          | Raise e => Raise e
          | Return [] => Raise IndexError
          | Return (answer :: _) => Return answer
          end
      end
  end.

(** A model that answers with the text it was given. *)
Definition echo_model : seq2seq string string := {|
  tokenize := fun prompt => Return prompt;
  generate := fun inputs _ _ => Return inputs;
  batch_decode := fun outputs => Return [outputs]
|}.

(** ** License filters as the source receives them: strings

    [require_model_license] and [get_model_name] take the filter as a string,
    and [re.match] compiles it before it matches.  [re_compile_src] is that
    compilation with its three outcomes: the compiled form of a pattern of the
    fragment, [re.error] for a pattern that [re] rejects, and no answer for a
    pattern that [re] may accept but that lies outside the fragment. *)















(** ** Further sample states and names *)

(** The tier names of LANGUAGEMODELS_SIZE. *)
Definition tiers : list string := ["small"; "base"; "large"; "xl"; "xxl"].



(** * Properties *)

(** ** Order of binary64 floats *)

Section FloatOrder.

Local Open Scope float_scope.

Remark compare_cont_Eq (m1 m2 : positive) :
  Pos.compare_cont Eq m1 m2 = Pos.compare m1 m2.
Proof. reflexivity. Qed.

Ltac sf_order :=
  repeat match goal with
         | s : bool |- _ => destruct s
         end;
  simpl in *; try discriminate; try reflexivity;
  rewrite ?compare_cont_Eq in *;
  repeat match goal with
         | H : context [Z.compare ?a ?b] |- _ =>
             destruct (Z.compare_spec a b); simpl in H; try discriminate
         | H : context [Pos.compare ?a ?b] |- _ =>
             destruct (Pos.compare_spec a b); simpl in H; try discriminate
         | |- context [Z.compare ?a ?b] =>
             destruct (Z.compare_spec a b); simpl; try lia
         | |- context [Pos.compare ?a ?b] =>
             destruct (Pos.compare_spec a b); simpl; try lia
         end;
  subst; try lia; try reflexivity; try discriminate.

Lemma SFltb_leb_trans x y z :
  SFltb x y = true -> SFleb y z = true -> SFltb x z = true.
Proof.
  unfold SFltb, SFleb.
  destruct x as [sx|sx| |sx mx ex], y as [sy|sy| |sy my ey],
        z as [sz|sz| |sz mz ez];
    simpl; intros H1 H2; try discriminate; sf_order.
Qed.

Lemma SFltb_above x y b :
  SFltb x b = true -> SFltb y b = false -> SFeqb y y = true ->
  SFltb x y = true.
Proof.
  unfold SFltb, SFeqb.
  destruct x as [sx|sx| |sx mx ex], y as [sy|sy| |sy my ey],
        b as [sb|sb| |sb mb eb];
    simpl; intros H1 H2 H3; try discriminate; sf_order.
Qed.

Lemma SFeqb_not_ltb x y : SFeqb x y = true -> SFltb x y = false.
Proof.
  unfold SFeqb, SFltb.
  destruct (SFcompare x y) as [[]|]; auto; discriminate.
Qed.

(** [x < y <= z] gives [x < z]. *)
Lemma ltb_leb_trans x y z :
  (x <? y) = true -> (y <=? z) = true -> (x <? z) = true.
Proof. rewrite !ltb_spec, leb_spec. apply SFltb_leb_trans. Qed.

(** A number [y] that is not below a bound that [x] is below lies above
    [x]. *)
Lemma ltb_above x y b :
  (x <? b) = true -> (y <? b) = false -> (y =? y) = true -> (x <? y) = true.
Proof. rewrite !ltb_spec, eqb_spec. apply SFltb_above. Qed.

Lemma eqb_not_ltb x y : (x =? y) = true -> (x <? y) = false.
Proof. rewrite ltb_spec, eqb_spec. apply SFeqb_not_ltb. Qed.

End FloatOrder.

(** ** Selection *)

(** The empty pattern matches every string. *)
Lemma re_match_empty_pattern s : Re.re_match Re.Eps s = true.
Proof. destruct s; reflexivity. Qed.

Section Selection.

Variables (model_type : string) (max_ram : float) (license_match : option Re.regex).

Let sel := selectable model_type max_ram license_match.
Let scan := scan_models model_type max_ram license_match.

Lemma selectable_satisfies d :
  selectable model_type max_ram license_match d = true <->
  satisfies model_type max_ram license_match d.
Proof.
  unfold selectable, satisfies, sizefit, memsize, licensematch.
  rewrite !andb_true_iff, String.eqb_eq.
  destruct license_match; intuition.
Qed.

Lemma scan_models_cons d l :
  int8 d ->
  scan (d :: l) = if sel d then Return (name d) else scan l.
Proof.
  unfold int8, scan, sel. intros H. simpl. rewrite H. reflexivity.
Qed.

(** The loop returns the name of the first selectable descriptor. *)
Lemma scan_models_first l :
  Forall int8 l ->
  (exists d, In d l /\ sel d = true) ->
  exists before d after,
    l = before ++ d :: after /\ sel d = true /\
    (forall d', In d' before -> sel d' = false) /\
    scan l = Return (name d).
Proof.
  induction 1 as [|d l Hd Hl IH]; intros [d0 [Hin Hsel]].
  - destruct Hin.
  - rewrite scan_models_cons by assumption.
    destruct (sel d) eqn:E.
    + exists [], d, l. repeat split; auto. intros d' [].
    + destruct IH as (before & d1 & after & -> & Hs & Hb & Hr).
      * destruct Hin as [<-|Hin]; [congruence|]. eauto.
      * exists (d :: before), d1, after. repeat split; auto.
        intros d' [<-|Hin']; auto.
Qed.


(** The loop returns a name or raises ModelException, nothing else. *)
Lemma scan_models_outcome l :
  Forall int8 l ->
  (exists d, In d l /\ sel d = true /\ scan l = Return (name d)) \/
  ((forall d, In d l -> sel d = false) /\
   scan l = Raise (ModelException ("No valid model found for " ++ model_type)%string)).
Proof.
  induction 1 as [|d l Hd Hl IH].
  - right. split; [intros d []|reflexivity].
  - rewrite scan_models_cons by assumption.
    destruct (sel d) eqn:E.
    + left. exists d. simpl. auto.
    + destruct IH as [(d1 & Hin & Hs & Hr)|[Hall Hr]].
      * left. exists d1. simpl. auto.
      * right. split; [|exact Hr]. intros d' [<-|Hin]; auto.
Qed.

End Selection.

Lemma models_int8 : Forall int8 models.
Proof. repeat constructor. Qed.

Lemma pin_absent env model_type max_ram license_match :
  env pinned_name = None ->
  get_model_name env model_type max_ram license_match =
  scan_models model_type max_ram license_match models.
Proof.
  unfold get_model_name, pinned_name. intros ->. reflexivity.
Qed.

(** Two budgets: the choice under the larger one comes no later in the list,
    and is not below the smaller budget unless it is the same choice. *)
Lemma scan_models_mono model_type license_match b1 b2 l n1 n2 :
  Forall int8 l ->
  (b1 <=? b2)%float = true ->
  scan_models model_type b1 license_match l = Return n1 ->
  scan_models model_type b2 license_match l = Return n2 ->
  exists d1 d2,
    In d1 l /\ In d2 l /\ name d1 = n1 /\ name d2 = n2 /\
    (d1 = d2 \/ (sizefit b1 d1 = true /\ sizefit b1 d2 = false)).
Proof.
  intros Hq Hle. induction Hq as [|d l Hd Hl IH]; intros H1 H2.
  - discriminate.
  - rewrite scan_models_cons in H1, H2 by assumption.
    destruct (selectable model_type b1 license_match d) eqn:E1.
    + assert (E2 : selectable model_type b2 license_match d = true).
      { unfold selectable in *. rewrite !andb_true_iff in *.
        destruct E1 as [[Ht Hs] Hl1]. repeat split; auto.
        unfold sizefit in *. eapply ltb_leb_trans; eauto. }
      rewrite E2 in H2. injection H1 as <-. injection H2 as <-.
      exists d, d. simpl. auto 6.
    + destruct (selectable model_type b2 license_match d) eqn:E2.
      * injection H2 as <-.
        destruct (scan_models_outcome model_type b1 license_match l Hl)
          as [(d1 & Hin & Hs & Hr)|[_ Hr]]; [|congruence].
        rewrite Hr in H1. injection H1 as <-.
        exists d1, d. simpl. repeat split; auto. right.
        unfold selectable in *. rewrite !andb_true_iff in *.
        destruct Hs as [[_ Hs] _]. destruct E2 as [[Ht _] Hl2].
        rewrite Ht, Hl2, andb_true_r in E1. simpl in E1. auto.
      * destruct (IH H1 H2) as (d1 & d2 & ? & ? & ? & ? & ?).
        exists d1, d2. simpl. auto 8.
Qed.

(** Facts of the shipped list, by evaluation. *)
Lemma models_names_unique d d' :
  In d models -> In d' models -> name d = name d' -> d = d'.
Proof.
  unfold models. simpl.
  intros H H'.
  repeat (destruct H as [<-|H]; [
    repeat (destruct H' as [<-|H']; [intros E; first [reflexivity | discriminate E]|]);
    destruct H' |]).
  destruct H.
Qed.

Lemma models_params_order d1 d2 :
  In d1 models -> In d2 models ->
  (memsize d1 <? memsize d2)%float = true -> (params d1 <=? params d2)%float = true.
Proof.
  intros H1 H2 Hlt.
  assert (E : forallb (fun d1 =>
                forallb (fun d2 =>
                  implb (memsize d1 <? memsize d2)%float
                        (params d1 <=? params d2)%float) models)
                models = true)
    by (vm_compute; reflexivity).
  rewrite forallb_forall in E. specialize (E d1 H1).
  rewrite forallb_forall in E. specialize (E d2 H2).
  rewrite Hlt in E. exact E.
Qed.

Lemma models_numbers d :
  In d models ->
  (memsize d =? memsize d)%float = true /\ (params d <=? params d)%float = true.
Proof.
  intros H.
  assert (E : forallb (fun d => (memsize d =? memsize d)%float
                                && (params d <=? params d)%float) models = true)
    by (vm_compute; reflexivity).
  rewrite forallb_forall in E. specialize (E d H).
  apply andb_true_iff in E. exact E.
Qed.

(** C1: with no pinned name and some descriptor of the list meeting the
    three conditions (purpose, [params / 1e9] strictly below the budget,
    license filter absent or matching as a prefix pattern), [get_model_name]
    returns the name of the earliest such descriptor; a descriptor exactly at
    the budget does not meet them; and
    [get_model_name("instruct", 1.0, "apache*")] is
    ["flan-t5-large-ct2-int8"]. *)
Theorem get_model_name_first_match
    (env : environ) (purpose : string) (budget : float)
    (licenseFilter : option Re.regex)
    (Hpin : env pinned_name = None)
    (Hsome : exists d, In d models /\ satisfies purpose budget licenseFilter d) :
  (exists before d after,
      models = before ++ d :: after /\
      satisfies purpose budget licenseFilter d /\
      (forall d', In d' before -> ~ satisfies purpose budget licenseFilter d') /\
      get_model_name env purpose budget licenseFilter = Return (name d)) /\
  (forall d, (params d / 1e9 =? budget)%float = true ->
             ~ satisfies purpose budget licenseFilter d) /\
  option_map (fun r => get_model_name no_environ "instruct" 1%float (Some r))
    (Re.re_compile "apache*") = Some (Return "flan-t5-large-ct2-int8").
Proof.
  split; [|split].
  - rewrite pin_absent by assumption.
    destruct Hsome as (d0 & Hin & Hsat).
    destruct (scan_models_first purpose budget licenseFilter models models_int8)
      as (before & d & after & Heq & Hs & Hb & Hr).
    { exists d0. split; [assumption|]. apply selectable_satisfies. assumption. }
    exists before, d, after. repeat split; auto.
    + apply selectable_satisfies in Hs. apply Hs.
    + apply selectable_satisfies in Hs. apply Hs.
    + apply selectable_satisfies in Hs. apply Hs.
    + intros d' Hin' Hsat'. apply selectable_satisfies in Hsat'.
      rewrite (Hb d' Hin') in Hsat'. discriminate.
  - intros d Heq (_ & Hlt & _). apply eqb_not_ltb in Heq. congruence.
  - vm_compute. reflexivity.
Qed.

(** The doctest with the pattern [apache*], through the theorem. *)
Lemma get_model_name_first_match_witness :
  (exists before d after,
      models = before ++ d :: after /\
      satisfies "instruct" 1%float (Re.re_compile "apache*") d /\
      (forall d', In d' before ->
                  ~ satisfies "instruct" 1%float (Re.re_compile "apache*") d') /\
      get_model_name no_environ "instruct" 1%float (Re.re_compile "apache*")
      = Return (name d)) /\
  (forall d, (params d / 1e9 =? 1)%float = true ->
             ~ satisfies "instruct" 1%float (Re.re_compile "apache*") d) /\
  option_map (fun r => get_model_name no_environ "instruct" 1%float (Some r))
    (Re.re_compile "apache*") = Some (Return "flan-t5-large-ct2-int8").
Proof.
  apply (get_model_name_first_match no_environ "instruct" 1%float
           (Re.re_compile "apache*")).
  - reflexivity.
  - exists (model_at 5). split.
    + vm_compute. tauto.
    + repeat split; vm_compute; reflexivity.
Defined.

(** Resolving the name reads the globals and changes nothing. *)
Lemma get_max_ram_pure env s : snd (get_max_ram env s) = s.
Proof.
  unfold get_max_ram, bind, gets, ret, lift. simpl.
  destruct (PyFloat.truthy (max_ram s)); [reflexivity|].
  destruct (env "LANGUAGEMODELS_SIZE") as [v|]; [|reflexivity].
  destruct (str_truthy (Some v)); [|reflexivity].
  repeat match goal with
         | |- context [if ?b then _ else _] => destruct b; try reflexivity
         end.
Qed.

Lemma resolve_pure env model_type s : snd (resolve env model_type s) = s.
Proof.
  unfold resolve, bind.
  pose proof (get_max_ram_pure env s) as Hp.
  destruct (get_max_ram env s) as [[b|e] s']; simpl in Hp; subst s'.
  - unfold gets, lift. reflexivity.
  - reflexivity.
Qed.

(** C10: every descriptor of the list has quantization ["int8"], so the
    [assert] of the loop never fails: for every environment, purpose, budget
    and license filter [get_model_name] returns a name or raises
    ModelException, never AssertionError. *)
Theorem quantization_assert_never_fails
    (env : environ) (model_type : string) (max_ram : float)
    (license_match : option Re.regex) :
  Forall (fun d => quantization d = "int8") models /\
  ((exists n, get_model_name env model_type max_ram license_match = Return n) \/
   (exists msg, get_model_name env model_type max_ram license_match
                = Raise (ModelException msg))).
Proof.
  split; [exact models_int8|].
  unfold get_model_name.
  destruct (str_truthy (env "LANGUAGEMODELS_INSTRUCT_MODEL")
            && String.eqb model_type "instruct") eqn:E.
  - destruct (env "LANGUAGEMODELS_INSTRUCT_MODEL") as [p|].
    + left. eexists. reflexivity.
    + discriminate E.
  - destruct (scan_models_outcome model_type max_ram license_match models models_int8)
      as [(d & _ & _ & Hr)|[_ Hr]]; rewrite Hr; [left|right]; eexists; reflexivity.
Qed.

(** C9: with no pinned name, a fixed purpose and license filter and budgets
    [b1 <= b2] at which selection succeeds, the descriptor selected at [b2]
    has at least the [params] of the descriptor selected at [b1]. *)
Theorem budget_monotone
    (env : environ) (purpose : string) (licenseFilter : option Re.regex)
    (b1 b2 : float) (n1 n2 : string) (d1 d2 : model_descr)
    (Hpin : env pinned_name = None)
    (Hle : (b1 <=? b2)%float = true)
    (H1 : get_model_name env purpose b1 licenseFilter = Return n1)
    (H2 : get_model_name env purpose b2 licenseFilter = Return n2)
    (Hd1 : In d1 models) (Hn1 : name d1 = n1)
    (Hd2 : In d2 models) (Hn2 : name d2 = n2) :
  (params d1 <=? params d2)%float = true.
Proof.
  rewrite pin_absent in H1, H2 by assumption.
  destruct (scan_models_mono purpose licenseFilter b1 b2 models n1 n2
              models_int8 Hle H1 H2)
    as (e1 & e2 & He1 & He2 & Hm1 & Hm2 & Hrel).
  assert (e1 = d1) by (apply models_names_unique; congruence).
  assert (e2 = d2) by (apply models_names_unique; congruence).
  subst e1 e2.
  destruct Hrel as [<-|[Hfit Hnot]].
  - apply models_numbers. assumption.
  - apply models_params_order; auto.
    unfold sizefit in *.
    apply (ltb_above _ _ b1); auto.
    apply models_numbers. assumption.
Qed.

(** The budgets 0.40 and 1.0 without a license filter, through the
    theorem. *)
Lemma budget_monotone_witness :
  (params (model_at 6) <=? params (model_at 4))%float = true.
Proof.
  apply (budget_monotone no_environ "instruct" None 0.40%float 1%float
           "LaMini-Flan-T5-248M-ct2-int8" "LaMini-Flan-T5-783M-ct2-int8").
  - reflexivity.
  - vm_compute. reflexivity.
  - vm_compute. reflexivity.
  - vm_compute. reflexivity.
  - vm_compute. tauto.
  - reflexivity.
  - vm_compute. tauto.
  - reflexivity.
Defined.

(** ** Strings *)

Section Strings.

Local Open Scope string_scope.

Lemma last_snoc t a : PyStr.last (t ++ String a "") = Some a.
Proof.
  induction t as [|c t IH]; [reflexivity|].
  simpl. rewrite IH. destruct (t ++ String a ""); [discriminate IH|reflexivity].
Qed.

Lemma init_snoc t a : PyStr.init (t ++ String a "") = t.
Proof.
  induction t as [|c t IH]; [reflexivity|].
  simpl. rewrite IH.
  destruct t; reflexivity.
Qed.

Lemma init_last t a : PyStr.last t = Some a -> t = PyStr.init t ++ String a "".
Proof.
  induction t as [|c t IH]; [discriminate|].
  destruct t as [|c' t'].
  - simpl. intros [= ->]. reflexivity.
  - intros H. change (PyStr.last (String c' t') = Some a) in H.
    change (String c (String c' t')
            = String c (PyStr.init (String c' t') ++ String a "")).
    f_equal. apply IH. exact H.
Qed.

Lemma last_cons_nonempty c t a :
  PyStr.last t = Some a -> PyStr.last (String c t) = Some a.
Proof. destruct t; [discriminate|]. auto. Qed.

Lemma append_empty_r s : s ++ "" = s.
Proof. induction s; simpl; congruence. Qed.

Lemma append_assoc s t u : (s ++ t) ++ u = s ++ t ++ u.
Proof. induction s; simpl; congruence. Qed.

(** What [rstrip] removes is a run of the stripped character, and what it
    leaves does not end with it. *)
Lemma rstrip_spec c s :
  (exists k, s = PyStr.rstrip c s ++ PyStr.repeat c k) /\
  PyStr.last (PyStr.rstrip c s) <> Some c.
Proof.
  induction s as [|a s [[k IHk] IHl]].
  - split; [exists 0; reflexivity|discriminate].
  - simpl. destruct (PyStr.rstrip c s) as [|b r] eqn:E.
    + destruct (Ascii.eqb_spec a c) as [->|Hne].
      * split; [|discriminate]. exists (S k). simpl. f_equal. exact IHk.
      * split; [|simpl; congruence]. exists k. simpl. f_equal. exact IHk.
    + split.
      * exists k. simpl. f_equal. exact IHk.
      * intros H. apply IHl. rewrite <- H. reflexivity.
Qed.

Lemma rstrip_repeat c k : PyStr.rstrip c (PyStr.repeat c k) = "".
Proof.
  induction k as [|k IH]; [reflexivity|].
  simpl. rewrite IH, Ascii.eqb_refl. reflexivity.
Qed.

Lemma rstrip_app_repeat c t k :
  PyStr.last t <> Some c -> PyStr.rstrip c (t ++ PyStr.repeat c k) = t.
Proof.
  induction t as [|a t IH]; intros H.
  - apply rstrip_repeat.
  - simpl. destruct t as [|a' t'].
    + simpl. rewrite rstrip_repeat.
      destruct (Ascii.eqb_spec a c) as [->|]; [|reflexivity].
      exfalso. apply H. reflexivity.
    + rewrite IH by exact H. reflexivity.
Qed.

Lemma last_lower t :
  PyStr.last (PyStr.lower t) = option_map PyStr.lower_ascii (PyStr.last t).
Proof.
  induction t as [|c t IH]; [reflexivity|].
  simpl. rewrite IH. destruct t; reflexivity.
Qed.

End Strings.

(** ** The strings [float] accepts *)

Section FloatStrings.

Local Open Scope string_scope.

Lemma lstrip_last s a :
  PyStr.last s = Some a -> PyFloat.is_space a = false ->
  PyStr.last (PyFloat.lstrip s) = Some a.
Proof.
  induction s as [|c s IH]; [discriminate|].
  intros Hl Ha. simpl PyFloat.lstrip.
  destruct (PyFloat.is_space c) eqn:Ec; [|exact Hl].
  destruct s as [|c' s'].
  - simpl in Hl. congruence.
  - apply IH; assumption.
Qed.

Lemma rstrip_last s a :
  PyStr.last s = Some a -> PyFloat.is_space a = false ->
  PyStr.last (PyFloat.rstrip s) = Some a.
Proof.
  induction s as [|c s IH]; [discriminate|].
  intros Hl Ha. destruct s as [|c' s'].
  - simpl in *. injection Hl as ->. rewrite Ha. reflexivity.
  - specialize (IH Hl Ha).
    change (PyFloat.rstrip (String c (String c' s')))
      with (match PyFloat.rstrip (String c' s') with
            | "" => if PyFloat.is_space c then "" else String c ""
            | r => String c r
            end).
    destruct (PyFloat.rstrip (String c' s')) as [|b r]; [discriminate IH|].
    apply last_cons_nonempty. exact IH.
Qed.

Lemma strip_last s a :
  PyStr.last s = Some a -> PyFloat.is_space a = false ->
  PyStr.last (PyFloat.strip s) = Some a.
Proof.
  intros. unfold PyFloat.strip. apply rstrip_last; [apply lstrip_last|]; assumption.
Qed.

Lemma run_snoc st w a :
  PyFloat.run st (w ++ String a "") =
  match PyFloat.run st w with
  | Some st' => PyFloat.step st' a
  | None => None
  end.
Proof.
  revert st. induction w as [|c w IH]; intros st; simpl.
  - destruct (PyFloat.step st a); reflexivity.
  - destruct (PyFloat.step st c); [apply IH|reflexivity].
Qed.

Lemma step_other st a : PyFloat.classify a = PyFloat.COther -> PyFloat.step st a = None.
Proof.
  intros H. unfold PyFloat.step. rewrite H. destruct (PyFloat.sc_phase st); reflexivity.
Qed.

Lemma floatnumber_last neg w a r :
  PyFloat.floatnumber neg w = Some r -> PyStr.last w = Some a ->
  PyFloat.classify a <> PyFloat.COther.
Proof.
  unfold PyFloat.floatnumber. intros H Hl Hc.
  rewrite (init_last w a Hl), run_snoc in H.
  destruct (PyFloat.run PyFloat.scan0 (PyStr.init w)); [|discriminate].
  rewrite step_other in H by assumption. discriminate.
Qed.

Lemma absfloatvalue_last neg w a r :
  PyFloat.absfloatvalue neg w = Some r -> PyStr.last w = Some a -> ~ unit_letter a.
Proof.
  unfold PyFloat.absfloatvalue. intros H Hl Hu.
  assert (Hlow : PyStr.last (PyStr.lower w) = Some a).
  { rewrite last_lower, Hl. destruct Hu as [->|[->| ->]]; reflexivity. }
  destruct (String.eqb_spec (PyStr.lower w) "inf") as [E|_].
  { rewrite E in Hlow. destruct Hu as [->|[->| ->]]; discriminate. }
  destruct (String.eqb_spec (PyStr.lower w) "infinity") as [E|_].
  { rewrite E in Hlow. destruct Hu as [->|[->| ->]]; discriminate. }
  destruct (String.eqb_spec (PyStr.lower w) "nan") as [E|_].
  { rewrite E in Hlow. destruct Hu as [->|[->| ->]]; discriminate. }
  simpl in H.
  apply (floatnumber_last neg w a r H Hl).
  destruct Hu as [->|[->| ->]]; reflexivity.
Qed.

(** No string that [float] accepts ends with a unit letter. *)
Lemma of_string_last s x a :
  PyFloat.of_string s = Some x -> PyStr.last s = Some a -> ~ unit_letter a.
Proof.
  unfold PyFloat.of_string. intros H Hl Hu.
  assert (Hsp : PyFloat.is_space a = false)
    by (destruct Hu as [->|[->| ->]]; reflexivity).
  pose proof (strip_last s a Hl Hsp) as Hs.
  destruct (PyFloat.strip s) as [|c l]; [discriminate|].
  destruct (PyFloat.classify c) eqn:Ec;
    try (destruct (PyFloat.absfloatvalue false (String c l)) as [r|] eqn:E;
         [exact (absfloatvalue_last _ _ _ _ E Hs Hu)|discriminate]).
  destruct (PyFloat.absfloatvalue neg l) as [r|] eqn:E; [|discriminate].
  destruct l as [|c' l'].
  - vm_compute in E. discriminate.
  - exact (absfloatvalue_last _ _ _ _ E Hs Hu).
Qed.

Lemma of_string_nonempty x : PyFloat.of_string "" <> Some x.
Proof. discriminate. Qed.

End FloatStrings.

(** ** Budget configuration *)

Lemma set_max_ram_run value s :
  set_max_ram value s =
  match convert_to_gb value with
  | Return x => (Return x, set_max_ram_field x s)
  | Raise e => (Raise e, s)
  end.
Proof.
  unfold set_max_ram, bind, lift, modify, gets.
  destruct (convert_to_gb value); reflexivity.
Qed.

Lemma multipliers_unit a mult :
  multipliers a = Some mult ->
  (a = "g"%char /\ mult = 1%float) \/ (a = "m"%char /\ mult = 0.0009765625%float).
Proof.
  unfold multipliers.
  destruct (Ascii.eqb_spec a "g") as [->|_]; [intros [= <-]; auto|].
  destruct (Ascii.eqb_spec a "m") as [->|_]; [intros [= <-]; auto|].
  discriminate.
Qed.

Lemma multipliers_none a : ~ unit_letter a -> multipliers a = None.
Proof.
  unfold multipliers, unit_letter. intros H.
  destruct (Ascii.eqb_spec a "g") as [->|_]; [tauto|].
  destruct (Ascii.eqb_spec a "m") as [->|_]; [tauto|].
  reflexivity.
Qed.

(** The strings [convert_to_gb] accepts, and their values. *)
Lemma convert_to_gb_str s v :
  convert_to_gb (PStr s) = Return v <->
  exists num u k x,
    PyStr.lower s = (num ++ u ++ PyStr.repeat "b" k)%string /\
    PyFloat.of_string num = Some x /\ scaled u x v.
Proof.
  unfold convert_to_gb, float_of_str. split.
  - destruct (rstrip_spec "b" (PyStr.lower s)) as [[k Hk] _].
    set (t := PyStr.rstrip "b" (PyStr.lower s)) in *.
    destruct (PyStr.last t) as [c|] eqn:Hl; [|discriminate].
    destruct (multipliers c) as [mult|] eqn:Hm.
    + destruct (PyFloat.of_string (PyStr.init t)) as [x|] eqn:Hx; [|discriminate].
      intros [= <-].
      exists (PyStr.init t), (String c ""), k, x.
      split; [|split; [exact Hx|]].
      * rewrite Hk at 1. rewrite (init_last t c Hl) at 1.
        apply append_assoc.
      * unfold scaled.
        destruct (multipliers_unit c mult Hm) as [[-> ->]|[-> ->]]; auto.
    + destruct (PyFloat.of_string t) as [x|] eqn:Hx; [|discriminate].
      intros [= <-].
      exists t, ""%string, k, x. unfold scaled. auto.
  - intros (num & u & k & x & Hs & Hx & Hv).
    assert (Hnum : forall a, PyStr.last num = Some a -> ~ unit_letter a)
      by (intros a; apply (of_string_last num x a Hx)).
    rewrite Hs. rewrite <- append_assoc.
    destruct Hv as [[-> ->]|[[-> ->]|[-> ->]]].
    + rewrite append_empty_r.
      rewrite rstrip_app_repeat.
      2:{ intros Hb. apply (Hnum _ Hb). left. reflexivity. }
      destruct (PyStr.last num) as [a|] eqn:Hl.
      * rewrite multipliers_none by (apply Hnum; reflexivity).
        rewrite Hx. reflexivity.
      * destruct num as [|c num'].
        -- discriminate Hx.
        -- exfalso. clear - Hl. revert c Hl.
           induction num' as [|c' n IH]; intros c Hl; [discriminate|].
           apply (IH c'). exact Hl.
    + rewrite rstrip_app_repeat by (rewrite last_snoc; discriminate).
      rewrite last_snoc, init_snoc. simpl. rewrite Hx. reflexivity.
    + rewrite rstrip_app_repeat by (rewrite last_snoc; discriminate).
      rewrite last_snoc, init_snoc. simpl. rewrite Hx. reflexivity.
Qed.

Lemma last_none s : PyStr.last s = None -> s = ""%string.
Proof.
  induction s as [|c s IH]; [reflexivity|].
  destruct s; [discriminate|]. intros H. specialize (IH H). discriminate IH.
Qed.

(** A string that is refused raises ValueError, unless nothing is left of
    it once the trailing [b]s are gone. *)
Lemma convert_to_gb_str_error s e :
  convert_to_gb (PStr s) = Raise e ->
  e = ValueError \/
  (e = IndexError /\ PyStr.rstrip "b" (PyStr.lower s) = ""%string).
Proof.
  unfold convert_to_gb, float_of_str.
  destruct (PyStr.last _) as [c|] eqn:Hl.
  - destruct (multipliers c).
    + destruct (PyFloat.of_string _); [discriminate|intros [= <-]; auto].
    + destruct (PyFloat.of_string _); [discriminate|intros [= <-]; auto].
  - intros [= <-]. right. split; [reflexivity|]. apply last_none. exact Hl.
Qed.

(** C7, as amended: [set_max_ram] takes a float, an int that fits a float, or
    a string; a string is lower-cased and loses all its trailing [b]s, and is
    accepted exactly when what is left is a number that [float] accepts,
    followed by nothing, by [g] (gigabytes) or by [m] (1/1024 gigabytes); the
    value is stored and returned; any other string raises (ValueError when
    something is left of it) and the stored budget stays as it was.  ["4G"]
    gives 4.0, ["256mb"] and ["256M"] give 0.25, [".5"] gives 0.5 and the
    int 16 gives 16.0. *)
Theorem set_max_ram_sizes (st : state) :
  (forall x, set_max_ram (PFloat x) st = (Return x, set_max_ram_field x st)) /\
  (forall z x, PyFloat.of_int z = Some x ->
               set_max_ram (PInt z) st = (Return x, set_max_ram_field x st)) /\
  (forall s v,
      set_max_ram (PStr s) st = (Return v, set_max_ram_field v st) <->
      exists num u k x,
        PyStr.lower s = (num ++ u ++ PyStr.repeat "b" k)%string /\
        PyFloat.of_string num = Some x /\ scaled u x v) /\
  (forall s,
      (exists v, set_max_ram (PStr s) st = (Return v, set_max_ram_field v st)) \/
      set_max_ram (PStr s) st = (Raise ValueError, st) \/
      (PyStr.rstrip "b" (PyStr.lower s) = ""%string /\
       exists e, set_max_ram (PStr s) st = (Raise e, st))) /\
  map (fun value => fst (set_max_ram value st))
    [PStr "4G"; PStr "256mb"; PStr "256M"; PStr ".5"; PInt 16]
  = [Return 4%float; Return 0.25%float; Return 0.25%float; Return 0.5%float;
     Return 16%float].
Proof.
  split; [|split; [|split; [|split]]].
  - intros x. apply set_max_ram_run.
  - intros z x H. rewrite set_max_ram_run. simpl. rewrite H. reflexivity.
  - intros s v. rewrite <- convert_to_gb_str. rewrite set_max_ram_run.
    destruct (convert_to_gb (PStr s)) as [x|e]; split.
    + intros [= ->]. reflexivity.
    + intros [= ->]. reflexivity.
    + discriminate.
    + discriminate.
  - intros s. rewrite set_max_ram_run.
    destruct (convert_to_gb (PStr s)) as [x|e] eqn:E.
    + left. exists x. reflexivity.
    + right. destruct (convert_to_gb_str_error s e E) as [-> |[-> Hempty]].
      * left. reflexivity.
      * right. split; [exact Hempty|]. eexists. reflexivity.
  - vm_compute. reflexivity.
Qed.

(** The int 16 and the string ["256MB"], through the theorem. *)
Lemma set_max_ram_sizes_witness :
  set_max_ram (PInt 16) (initial_state None)
  = (Return 16%float, set_max_ram_field 16%float (initial_state None)) /\
  set_max_ram (PStr "256MB") (initial_state None)
  = (Return 0.25%float, set_max_ram_field 0.25%float (initial_state None)).
Proof.
  destruct (set_max_ram_sizes (initial_state None)) as (_ & Hint & Hstr & _).
  split.
  - apply Hint. vm_compute. reflexivity.
  - apply Hstr. exists "256"%string, "m"%string, 1, 256%float.
    split; [reflexivity|]. split; [vm_compute; reflexivity|].
    right. right. split; [reflexivity|]. vm_compute. reflexivity.
Defined.

(** C7, as stated, fails: ["4bb"] and ["4gbb"] are not a number plus a
    recognised suffix, and are accepted as 4 gigabytes. *)
Lemma set_max_ram_accepts_trailing_b :
  size_string "4bb" = false /\
  convert_to_gb (PStr "4bb") = Return 4%float /\
  size_string "4gbb" = false /\
  convert_to_gb (PStr "4gbb") = Return 4%float /\
  size_string "4GB" = true.
Proof. vm_compute. repeat split; reflexivity. Qed.

(** ** The state monad *)

Section Monad.

Lemma bind_run {A B} (m : M A) (k : A -> M B) s :
  bind m k s =
  match fst (m s) with
  | Return a => k a (snd (m s))
  | Raise e => (Raise e, snd (m s))
  end.
Proof. unfold bind. destruct (m s) as [[a|e] s1]; reflexivity. Qed.

Lemma bind_return {A B} (m : M A) (k : A -> M B) s b s' :
  bind m k s = (Return b, s') ->
  exists a s1, m s = (Return a, s1) /\ k a s1 = (Return b, s').
Proof.
  unfold bind. destruct (m s) as [[a|e] s1]; [eauto|discriminate].
Qed.

Lemma frame_refl s : frame s s.
Proof. repeat split. Qed.

Lemma frame_trans s1 s2 s3 : frame s1 s2 -> frame s2 s3 -> frame s1 s3.
Proof. unfold frame. intuition congruence. Qed.

Lemma unload_requests_app l1 l2 :
  unload_requests (l1 ++ l2) = unload_requests l1 ++ unload_requests l2.
Proof.
  induction l1 as [|e l1 IH]; [reflexivity|].
  destruct e; simpl; rewrite IH; reflexivity.
Qed.

Lemma quiet_refl s : quiet s s.
Proof.
  split; [apply frame_refl|]. exists []. rewrite app_nil_r. auto.
Qed.

Lemma quiet_trans s1 s2 s3 : quiet s1 s2 -> quiet s2 s3 -> quiet s1 s3.
Proof.
  intros [F1 (e1 & T1 & U1)] [F2 (e2 & T2 & U2)].
  split; [eapply frame_trans; eauto|].
  exists (e1 ++ e2). rewrite T2, T1, app_assoc, unload_requests_app, U1, U2. auto.
Qed.

(** Quiet computations compose. *)
Lemma quiet_bind {A B} (m : M A) (k : A -> M B) :
  (forall s, quiet s (snd (m s))) ->
  (forall a s, quiet s (snd (k a s))) ->
  forall s, quiet s (snd (bind m k s)).
Proof.
  intros Hm Hk s. rewrite bind_run.
  destruct (fst (m s)) as [a|e].
  - eapply quiet_trans; [apply Hm|apply Hk].
  - apply Hm.
Qed.

Lemma quiet_log ev s :
  unload_requests [ev] = [] -> quiet s (log ev s).
Proof.
  intros H. split; [repeat split|]. exists [ev]. auto.
Qed.

Lemma quiet_set_runtime n l s : quiet s (set_runtime n l s).
Proof.
  split; [repeat split|]. exists []. simpl. rewrite app_nil_r. auto.
Qed.

Lemma quiet_outcome o s : quiet s (snd (outcome o s)).
Proof. destruct o; apply quiet_refl. Qed.

Lemma quiet_lift {A} (r : result A) s : quiet s (snd (lift r s)).
Proof. apply quiet_refl. Qed.

End Monad.

(** ** The collaborators are quiet *)

Section Collaborators.

Variable ext : externals.

Lemma quiet_hf_hub_download repo file s :
  quiet s (snd (hf_hub_download ext repo file s)).
Proof.
  unfold hf_hub_download. apply quiet_bind.
  - intros s0. apply quiet_log. reflexivity.
  - intros _ s0. apply quiet_lift.
Qed.

Lemma quiet_Tokenizer_from_pretrained repo s :
  quiet s (snd (Tokenizer_from_pretrained ext repo s)).
Proof.
  unfold Tokenizer_from_pretrained. apply quiet_bind.
  - intros s0. apply quiet_log. reflexivity.
  - intros _ s0. apply quiet_bind.
    + apply quiet_outcome.
    + intros _ s1. apply quiet_refl.
Qed.

Lemma quiet_Tokenizer_from_file path s :
  quiet s (snd (Tokenizer_from_file ext path s)).
Proof.
  unfold Tokenizer_from_file. apply quiet_bind.
  - intros s0. apply quiet_log. reflexivity.
  - intros _ s0. apply quiet_bind.
    + apply quiet_outcome.
    + intros _ s1. apply quiet_refl.
Qed.

Lemma quiet_ctranslate2_new k path s :
  quiet s (snd (ctranslate2_new ext k path s)).
Proof.
  unfold ctranslate2_new. apply quiet_bind.
  - intros s0. apply quiet_log. reflexivity.
  - intros _ s0. apply quiet_bind.
    + apply quiet_outcome.
    + intros _ s1. apply quiet_bind.
      * intros s2. apply quiet_refl.
      * intros n s2. apply quiet_bind.
        -- intros s3. apply quiet_set_runtime.
        -- intros _ s3. apply quiet_refl.
Qed.

Lemma quiet_build_model k path tokenizer_only s :
  quiet s (snd (build_model ext k path tokenizer_only s)).
Proof.
  unfold build_model. destruct tokenizer_only; simpl.
  - apply quiet_refl.
  - apply quiet_bind.
    + apply quiet_ctranslate2_new.
    + intros h s0. apply quiet_refl.
Qed.

(** [load_model] raises nothing but what the runtime raises, and
    AttributeError on [None]. *)
Lemma load_model_run key s :
  load_model ext key s =
  match dict_get key (modelcache s) with
  | None => (Raise KeyError, s)
  | Some (_, None) => (Raise AttributeError, log (LoadModel key None) s)
  | Some (_, Some h) =>
      let s1 := log (LoadModel key (Some h)) s in
      match ext_load ext h with
      | None =>
          (Return tt,
           set_runtime (next_id s1) (h_id h :: remove_id (h_id h) (resident s1)) s1)
      | Some e => (Raise e, s1)
      end
  end.
Proof.
  unfold load_model, bind, gets, modify, raise, outcome. 
  destruct (dict_get key (modelcache s)) as [[t [h|]]|]; try reflexivity.
  simpl. destruct (ext_load ext h); reflexivity.
Qed.

Lemma unload_model_run key s :
  unload_model ext key s =
  match dict_get key (modelcache s) with
  | None => (Raise KeyError, s)
  | Some (_, None) => (Raise AttributeError, log (UnloadModel key None) s)
  | Some (_, Some h) =>
      let s1 := log (UnloadModel key (Some h)) s in
      match ext_unload ext h with
      | None =>
          (Return tt, set_runtime (next_id s1) (remove_id (h_id h) (resident s1)) s1)
      | Some e => (Raise e, s1)
      end
  end.
Proof.
  unfold unload_model, bind, gets, modify, raise, outcome.
  destruct (dict_get key (modelcache s)) as [[t [h|]]|]; try reflexivity.
  simpl. destruct (ext_unload ext h); reflexivity.
Qed.

Lemma quiet_reload model_name s : quiet s (snd (reload ext model_name s)).
Proof.
  unfold reload, except_AttributeError. rewrite load_model_run.
  destruct (dict_get model_name (modelcache s)) as [[t [h|]]|].
  - cbv zeta. destruct (ext_load ext h) as [e|].
    + destruct e; cbv beta iota delta [snd]; apply quiet_log; reflexivity.
    + cbv beta iota delta [snd].
      apply (quiet_trans _ (log (LoadModel model_name (Some h)) s));
        [apply quiet_log; reflexivity|apply quiet_set_runtime].
  - cbv beta iota delta [snd]. apply quiet_log. reflexivity.
  - apply quiet_refl.
Qed.

(** With a runtime that fails only for want of the capability, the reload
    of a cached entry returns. *)
Lemma reload_returns model_name s :
  capability_only (ext_load ext) ->
  dict_mem model_name (modelcache s) = true ->
  fst (reload ext model_name s) = Return tt.
Proof.
  unfold reload, except_AttributeError, dict_mem. intros Hcap Hmem.
  rewrite load_model_run.
  destruct (dict_get model_name (modelcache s)) as [[t [h|]]|]; [| |discriminate].
  - simpl. destruct (ext_load ext h) as [e|] eqn:E; [|reflexivity].
    rewrite (Hcap h e E). reflexivity.
  - reflexivity.
Qed.


End Collaborators.

(** ** Dictionaries *)

Section Dict.

Context {V : Type}.
Implicit Types (d : list (string * V)) (k : string) (v : V).

Lemma dict_get_keys k d : dict_get k d = None <-> ~ In k (dict_keys d).
Proof.
  induction d as [|[k' v'] d IH]; simpl.
  - tauto.
  - destruct (String.eqb_spec k k') as [->|Hne].
    + split; [discriminate|]. intros H. exfalso. apply H. left. reflexivity.
    + rewrite IH. split.
      * intros H [E|Hin]; [congruence|tauto].
      * tauto.
Qed.

Lemma dict_set_keys_fresh k v d :
  dict_get k d = None -> dict_keys (dict_set k v d) = dict_keys d ++ [k].
Proof.
  induction d as [|[k' v'] d IH]; simpl; [reflexivity|].
  destruct (String.eqb k k'); [discriminate|].
  intros H. simpl. rewrite (IH H). reflexivity.
Qed.

Lemma dict_get_set_same k v d : dict_get k (dict_set k v d) = Some v.
Proof.
  induction d as [|[k' v'] d IH]; simpl.
  - rewrite String.eqb_refl. reflexivity.
  - destruct (String.eqb k k') eqn:E; simpl.
    + rewrite String.eqb_refl. reflexivity.
    + rewrite E. exact IH.
Qed.

Lemma dict_get_set_other k k0 v d :
  k0 <> k -> dict_get k0 (dict_set k v d) = dict_get k0 d.
Proof.
  intros Hne. induction d as [|[k' v'] d IH]; simpl.
  - destruct (String.eqb_spec k0 k); [contradiction|reflexivity].
  - destruct (String.eqb_spec k k') as [->|Hk]; simpl.
    + destruct (String.eqb_spec k0 k'); [contradiction|reflexivity].
    + destruct (String.eqb k0 k'); [reflexivity|exact IH].
Qed.

Lemma dict_mem_false k d : dict_mem k d = false -> dict_get k d = None.
Proof. unfold dict_mem. destruct (dict_get k d); [discriminate|reflexivity]. Qed.


End Dict.

Lemma NoDup_snoc {A} (l : list A) (a : A) : NoDup l -> ~ In a l -> NoDup (l ++ [a]).
Proof.
  induction 1 as [|x l Hx Hl IH]; intros Ha; simpl.
  - constructor; [intros []|constructor].
  - constructor.
    + rewrite in_app_iff. intros [H|[H|[]]]; [contradiction|].
      apply Ha. left. symmetry. exact H.
    + apply IH. intros H. apply Ha. right. exact H.
Qed.

(** ** The eviction loop *)

Section Eviction.

Variables (ext : externals) (model_name : string).

Lemma try_unload_frame key s :
  frame s (snd (except_AttributeError (unload_model ext key) s)).
Proof.
  unfold except_AttributeError. rewrite unload_model_run.
  destruct (dict_get key (modelcache s)) as [[t [h|]]|].
  - cbv zeta. destruct (ext_unload ext h) as [[]|]; repeat split.
  - repeat split.
  - repeat split.
Qed.

Lemma evict_cons key rest s :
  evict ext model_name (key :: rest) s =
  if negb (String.eqb key model_name)
  then match fst (except_AttributeError (unload_model ext key) s) with
       | Return _ =>
           evict ext model_name rest
             (snd (except_AttributeError (unload_model ext key) s))
       | Raise e => (Raise e, snd (except_AttributeError (unload_model ext key) s))
       end
  else evict ext model_name rest s.
Proof.
  simpl. rewrite bind_run. destruct (negb (String.eqb key model_name)); reflexivity.
Qed.

(** The loop never touches the globals. *)
Lemma evict_frame keys s : frame s (snd (evict ext model_name keys s)).
Proof.
  revert s. induction keys as [|key rest IH]; intros s.
  - apply frame_refl.
  - rewrite evict_cons. destruct (negb (String.eqb key model_name)); [|apply IH].
    pose proof (try_unload_frame key s) as Hf.
    destruct (fst (except_AttributeError (unload_model ext key) s)).
    + eapply frame_trans; [exact Hf|apply IH].
    + exact Hf.
Qed.



End Eviction.

(** ** Loading a model that is not cached *)

Section LoadFresh.

Variables (ext : externals) (model_name : string).

Lemma sof_bind {A} (m : M A) (k : A -> M unit) :
  (forall s, quiet s (snd (m s))) ->
  (forall a, stores_or_fails model_name (k a)) ->
  stores_or_fails model_name (bind m k).
Proof.
  intros Hm Hk s. rewrite bind_run.
  destruct (fst (m s)) as [a|e] eqn:E.
  - destruct (Hk a (snd (m s))) as [(e & He & Hq)|(Hr & entry & s1 & Hq & Hs)].
    + left. exists e. split; [exact He|].
      eapply quiet_trans; [apply Hm|exact Hq].
    + right. split; [exact Hr|]. exists entry, s1. split; [|exact Hs].
      eapply quiet_trans; [apply Hm|exact Hq].
  - left. exists e. split; [reflexivity|apply Hm].
Qed.

Lemma sof_store entry : stores_or_fails model_name (store model_name entry).
Proof.
  intros s. right. split; [reflexivity|].
  exists entry, s. split; [apply quiet_refl|reflexivity].
Qed.

Lemma load_fresh_stores tokenizer_only :
  stores_or_fails model_name (load_fresh ext model_name tokenizer_only).
Proof.
  unfold load_fresh.
  apply sof_bind; [intros; apply quiet_hf_hub_download|intros _].
  apply sof_bind; [intros; apply quiet_hf_hub_download|intros model_path].
  destruct (dispatch model_name).
  - apply sof_bind; [intros; apply quiet_hf_hub_download|intros _].
    apply sof_bind; [intros; apply quiet_Tokenizer_from_pretrained|intros tk].
    apply sof_bind; [intros; apply quiet_build_model|intros model].
    apply sof_store.
  - apply sof_bind; [intros; apply quiet_hf_hub_download|intros _].
    apply sof_bind; [intros; apply quiet_Tokenizer_from_pretrained|intros tk].
    apply sof_bind; [intros; apply quiet_build_model|intros model].
    apply sof_store.
  - apply sof_bind; [intros; apply quiet_hf_hub_download|intros _].
    apply sof_bind; [intros; apply quiet_hf_hub_download|intros tok_config].
    apply sof_bind; [intros; apply quiet_Tokenizer_from_file|intros tk].
    apply sof_bind; [intros; apply quiet_build_model|intros model].
    apply sof_store.
Qed.

End LoadFresh.

(** ** [get_model], step by step *)

Section GetModel.

Variables (env : environ) (ext : externals) (model_name : string)
          (tokenizer_only : bool).

Local Abbreviation pass budget :=
  (eviction_pass ext model_name budget tokenizer_only).

Local Abbreviation fill := (load_or_reload ext model_name tokenizer_only).

Lemma get_max_ram_run s budget :
  fst (get_max_ram env s) = Return budget ->
  get_max_ram env s = (Return budget, s).
Proof.
  intros H. rewrite (surjective_pairing (get_max_ram env s)).
  rewrite H, get_max_ram_pure. reflexivity.
Qed.

Lemma get_model_named_run s budget :
  fst (get_max_ram env s) = Return budget ->
  get_model_named env ext model_name tokenizer_only s =
  match fst (pass budget s) with
  | Raise e => (Raise e, snd (pass budget s))
  | Return _ =>
      let s1 := snd (pass budget s) in
      match fst (fill s1) with
      | Raise e => (Raise e, snd (fill s1))
      | Return _ =>
          let s2 := snd (fill s1) in
          match dict_get model_name (modelcache s2) with
          | Some e => (Return e, s2)
          | None => (Raise KeyError, s2)
          end
      end
  end.
Proof.
  intros Hb. unfold get_model_named.
  rewrite bind_run, (get_max_ram_run s budget Hb). cbn [fst snd].
  rewrite bind_run.
  destruct (fst (pass budget s)) as [[]|e]; [|reflexivity].
  cbv zeta. rewrite bind_run.
  destruct (fst (fill (snd (pass budget s)))) as [[]|e]; [|reflexivity].
  rewrite bind_run. unfold gets. cbn [fst snd].
  destruct (dict_get model_name (modelcache (snd (fill (snd (pass budget s))))));
    reflexivity.
Qed.

Lemma get_model_named_no_budget s e :
  fst (get_max_ram env s) = Raise e ->
  get_model_named env ext model_name tokenizer_only s = (Raise e, s).
Proof.
  intros H. unfold get_model_named. rewrite bind_run, H, get_max_ram_pure.
  reflexivity.
Qed.

Lemma pass_frame budget s : frame s (snd (pass budget s)).
Proof.
  unfold eviction_pass. destruct (must_evict budget tokenizer_only).
  - apply evict_frame.
  - apply frame_refl.
Qed.

(** What the load-or-reload step does to the cache, and that it asks no
    unload. *)
Lemma fill_cache s :
  silent s (snd (fill s)) /\
  (modelcache (snd (fill s)) = modelcache s \/
   (dict_get model_name (modelcache s) = None /\
    fst (fill s) = Return tt /\
    exists entry,
      modelcache (snd (fill s)) = dict_set model_name entry (modelcache s))).
Proof.
  unfold load_or_reload. rewrite bind_run. unfold gets. cbn [fst snd]. cbv beta.
  destruct (dict_mem model_name (modelcache s)) eqn:Hm; cbn [negb].
  - assert (Hq : quiet s (snd ((if negb tokenizer_only
                                then reload ext model_name else ret tt) s))).
    { destruct (negb tokenizer_only); [apply quiet_reload|apply quiet_refl]. }
    destruct Hq as [(Hc & _) Hs]. split; [exact Hs|left; exact Hc].
  - destruct (load_fresh_stores ext model_name tokenizer_only s)
      as [(e & He & [(Hc & _) Hs])|(Hr & entry & s1 & [(Hc & _) Hs] & Heq)].
    + split; [exact Hs|left; exact Hc].
    + rewrite Heq. split.
      * destruct Hs as (evs & Ht & Hu). exists evs. simpl. auto.
      * right. split; [apply dict_mem_false; exact Hm|].
        split; [exact Hr|]. exists entry. simpl. rewrite Hc. reflexivity.
Qed.

(** The cache after [get_model_named]: as it was, or with one new entry
    under [model_name]; a returned pair is the entry under
    [model_name]. *)
Lemma get_model_named_cache s :
  let r := get_model_named env ext model_name tokenizer_only s in
  (modelcache (snd r) = modelcache s \/
   (dict_get model_name (modelcache s) = None /\
    exists entry, modelcache (snd r) = dict_set model_name entry (modelcache s))) /\
  (forall e, fst r = Return e -> dict_get model_name (modelcache (snd r)) = Some e).
Proof.
  cbv zeta.
  destruct (fst (get_max_ram env s)) as [budget|e0] eqn:Hb.
  2:{ rewrite (get_model_named_no_budget s e0 Hb). split; [left; reflexivity|].
      discriminate. }
  rewrite (get_model_named_run s budget Hb).
  destruct (pass_frame budget s) as (Hc1 & _).
  destruct (fst (pass budget s)) as [[]|e1].
  2:{ split; [left; exact Hc1|discriminate]. }
  cbv zeta. set (s1 := snd (pass budget s)) in *.
  destruct (fill_cache s1) as (_ & Hfill).
  assert (Hcache :
            modelcache (snd (fill s1)) = modelcache s \/
            (dict_get model_name (modelcache s) = None /\
             exists entry,
               modelcache (snd (fill s1))
               = dict_set model_name entry (modelcache s))).
  { destruct Hfill as [H|(Hn & _ & entry & H)].
    - left. congruence.
    - right. rewrite <- Hc1. split; [exact Hn|]. exists entry. exact H. }
  destruct (fst (fill s1)) as [[]|e2]; [|split; [exact Hcache|discriminate]].
  destruct (dict_get model_name (modelcache (snd (fill s1)))) as [e|] eqn:Hg.
  - split; [exact Hcache|]. intros e' [= <-]. exact Hg.
  - split; [exact Hcache|discriminate].
Qed.

(** The unloads asked by [get_model_named] are those of its eviction
    pass. *)
Lemma get_model_named_unloads s budget :
  fst (get_max_ram env s) = Return budget ->
  exists evs,
    trace (snd (get_model_named env ext model_name tokenizer_only s))
    = trace (snd (pass budget s)) ++ evs /\
    unload_requests evs = [].
Proof.
  intros Hb. rewrite (get_model_named_run s budget Hb).
  destruct (fst (pass budget s)) as [[]|e1].
  2:{ exists []. rewrite app_nil_r. auto. }
  cbv zeta. destruct (fill_cache (snd (pass budget s))) as (Hs & _).
  destruct (fst (fill (snd (pass budget s)))) as [[]|e2]; [|exact Hs].
  destruct (dict_get model_name _); exact Hs.
Qed.



End GetModel.

Lemma get_model_run env ext model_type tokenizer_only s :
  get_model env ext model_type tokenizer_only s =
  match fst (resolve env model_type s) with
  | Return model_name => get_model_named env ext model_name tokenizer_only s
  | Raise e => (Raise e, s)
  end.
Proof.
  unfold get_model. rewrite bind_run, resolve_pure. reflexivity.
Qed.

(** ** The cache over sequences of calls *)

Lemma exec_cache c s :
  modelcache (exec c s) = modelcache s \/
  exists n entry,
    dict_get n (modelcache s) = None /\
    modelcache (exec c s) = dict_set n entry (modelcache s).
Proof.
  destruct c as [env ext model_type tokenizer_only|value|match_re]; simpl.
  - rewrite get_model_run.
    destruct (fst (resolve env model_type s)) as [n|e]; [|left; reflexivity].
    destruct (get_model_named_cache env ext n tokenizer_only s)
      as ([H|(Hn & entry & H)] & _); [left; exact H|].
    right. exists n, entry. auto.
  - left. rewrite set_max_ram_run. destruct (convert_to_gb value); reflexivity.
  - left. reflexivity.
Qed.

Lemma exec_nodup c s :
  NoDup (dict_keys (modelcache s)) -> NoDup (dict_keys (modelcache (exec c s))).
Proof.
  intros H. destruct (exec_cache c s) as [->|(n & entry & Hn & ->)]; [exact H|].
  rewrite dict_set_keys_fresh by exact Hn.
  apply NoDup_snoc; [exact H|]. apply dict_get_keys. exact Hn.
Qed.

Lemma run_nodup cs s :
  NoDup (dict_keys (modelcache s)) -> NoDup (dict_keys (modelcache (run cs s))).
Proof.
  revert s. induction cs as [|c cs IH]; intros s H; [exact H|].
  simpl. apply IH. apply exec_nodup. exact H.
Qed.

(** C8: in every state reached from module initialisation by calls of
    [get_model], [set_max_ram] and [require_model_license] the cache has at
    most one entry per name; no call removes or replaces an entry, returning
    or raising: the keys only grow at the end and every entry stays; and
    when [get_model] returns, the name it resolved is a key of the cache and
    the returned pair is the entry under it. *)
Theorem cache_only_grows :
  (forall env_license cs,
      NoDup (dict_keys (modelcache (run cs (initial_state env_license))))) /\
  (forall c s, exists extra,
        dict_keys (modelcache (exec c s)) = dict_keys (modelcache s) ++ extra) /\
  (forall c s k entry,
      dict_get k (modelcache s) = Some entry ->
      dict_get k (modelcache (exec c s)) = Some entry) /\
  (forall env ext model_type tokenizer_only s pair,
      fst (get_model env ext model_type tokenizer_only s) = Return pair ->
      exists model_name,
        fst (resolve env model_type s) = Return model_name /\
        In model_name
          (dict_keys (modelcache (snd (get_model env ext model_type tokenizer_only s)))) /\
        dict_get model_name
          (modelcache (snd (get_model env ext model_type tokenizer_only s)))
        = Some pair).
Proof.
  split; [|split; [|split]].
  - intros env_license cs. apply run_nodup. constructor.
  - intros c s. destruct (exec_cache c s) as [->|(n & entry & Hn & ->)].
    + exists []. rewrite app_nil_r. reflexivity.
    + exists [n]. apply dict_set_keys_fresh. exact Hn.
  - intros c s k entry Hk.
    destruct (exec_cache c s) as [->|(n & e & Hn & ->)]; [exact Hk|].
    rewrite dict_get_set_other; [exact Hk|]. congruence.
  - intros env ext model_type tokenizer_only s pair.
    rewrite get_model_run.
    destruct (fst (resolve env model_type s)) as [n|e]; [|discriminate].
    intros Hr. exists n. split; [reflexivity|].
    destruct (get_model_named_cache env ext n tokenizer_only s) as (_ & Hret).
    specialize (Hret pair Hr). split; [|exact Hret].
    destruct (in_dec string_dec n
                (dict_keys (modelcache (snd (get_model_named env ext n tokenizer_only s)))))
      as [Hin|Hout]; [exact Hin|].
    apply dict_get_keys in Hout. congruence.
Qed.

(** The first request for the embedding model, through the theorem. *)
Lemma cache_only_grows_witness :
  exists model_name,
    fst (resolve no_environ "embedding" (initial_state None)) = Return model_name /\
    In model_name
      (dict_keys (modelcache (snd (get_model no_environ ext_ok "embedding" false
                                     (initial_state None))))) /\
    dict_get model_name
      (modelcache (snd (get_model no_environ ext_ok "embedding" false
                          (initial_state None))))
    = Some ({| tk_origin := from_pretrained "jncraton/all-MiniLM-L6-v2-ct2-int8";
               tk_no_padding := true; tk_no_truncation := true |},
            Some {| h_id := 0; h_kind := Encoder;
                    h_path := "/hub/jncraton/all-MiniLM-L6-v2-ct2-int8" |}).
Proof.
  apply (proj2 (proj2 (proj2 cache_only_grows))).
  vm_compute. reflexivity.
Defined.

Lemma ext_ok_capability_only :
  capability_only (ext_unload ext_ok) /\ capability_only (ext_load ext_ok).
Proof.
  split; intros h e; simpl; destruct (h_kind h); congruence.
Qed.

(** With a runtime whose Translator fails to unload for another reason, a
    request for the embedding model, the instruct model being cached, raises
    that failure. *)
Example busy_unload_reaches_caller :
  fst (get_model no_environ ext_busy "embedding" false state_instruct_loaded)
  = Raise (ExternalError "busy").
Proof. vm_compute. reflexivity. Qed.

(** ** Where the code departs from its documentation *)

(** C2: at module initialisation [max_ram] is 512, which is truthy, so
    [get_max_ram] returns 512 whatever the environment holds, not the 0.40
    its docstring gives for a process that never called [set_max_ram]; the
    layers below the override are reached only from a falsy [max_ram]
    (after [set_max_ram(0)]): tier, then raw size, then 0.40. *)
Theorem get_max_ram_at_start :
  (forall env env_license,
      fst (get_max_ram env (initial_state env_license)) = Return 512%float) /\
  (0.40 <? 512)%float = true /\
  (forall env x s, PyFloat.truthy x = true ->
                   fst (get_max_ram env (snd (set_max_ram (PFloat x) s))) = Return x) /\
  (let s := snd (set_max_ram (PInt 0) (initial_state None)) in
   map (fun v => fst (get_max_ram (environ_with "LANGUAGEMODELS_SIZE" v) s))
     ["small"; "base"; "large"; "XL"; "xxl"; "2gb"; "512mb"]
   = [Return 0.2%float; Return 0.40%float; Return 1%float; Return 4%float;
      Return 16%float; Return 2%float; Return 0.5%float] /\
   fst (get_max_ram no_environ s) = Return 0.40%float).
Proof.
  split; [|split; [|split]].
  - intros env env_license. reflexivity.
  - vm_compute. reflexivity.
  - intros env x s Hx. rewrite set_max_ram_run. simpl.
    unfold get_max_ram, bind, gets. simpl. rewrite Hx. reflexivity.
  - vm_compute. split; reflexivity.
Qed.

(** A full request for a name whose entry holds no model returns that entry
    as it is. *)
Lemma absent_handle_is_returned env ext model_name tok s pair :
  dict_get model_name (modelcache s) = Some (tok, None) ->
  fst (get_model_named env ext model_name false s) = Return pair ->
  pair = (tok, None).
Proof.
  intros Hc Hr.
  destruct (get_model_named_cache env ext model_name false s)
    as ([Hsame|(Hnone & _)] & Hret); [|congruence].
  specialize (Hret pair Hr). rewrite Hsame, Hc in Hret. congruence.
Qed.

(** C3: after a tokenizer-only call cached the instruct model's entry, a
    full request for the same name returns the same pair, whose model is
    [None]: the reload finds no handle, the AttributeError is swallowed, and
    no model object is ever built. *)
Theorem full_request_after_tokenizer_only :
  let tok := {| tk_origin := from_file "/hub/jncraton/flan-alpaca-xl-ct2-int8/tokenizer.json";
                tk_no_padding := false; tk_no_truncation := false |} in
  let r := get_model no_environ ext_ok "instruct" false state_tokenizer_only in
  fst (get_model no_environ ext_ok "instruct" true (initial_state None))
  = Return (tok, None) /\
  modelcache state_tokenizer_only = [("flan-alpaca-xl-ct2-int8", (tok, None))] /\
  fst r = Return (tok, None) /\
  modelcache (snd r) = [("flan-alpaca-xl-ct2-int8", (tok, None))] /\
  next_id (snd r) = 0 /\
  trace (snd r)
  = trace state_tokenizer_only ++ [LoadModel "flan-alpaca-xl-ct2-int8" None].
Proof. vm_compute. repeat split; reflexivity. Qed.

(** C4: the branch [get_model] takes for a name agrees with the
    architecture tag of its descriptor for every descriptor of the list but
    ["flan-alpaca-gpt4-xl-ct2-int8"]: its tag is encoder-decoder, which
    prescribes the shared vocabulary and a Translator, and its name contains
    ["gpt"], so [get_model] fetches the JSON vocabulary and builds a
    Generator. *)
Theorem gpt4_name_takes_generator_branch :
  let r := get_model (environ_with pinned_name "flan-alpaca-gpt4-xl-ct2-int8")
             ext_ok "instruct" false (initial_state None) in
  map name (filter (fun d => negb (path_agrees d)) models)
  = ["flan-alpaca-gpt4-xl-ct2-int8"] /\
  name (model_at 1) = "flan-alpaca-gpt4-xl-ct2-int8" /\
  path_of_architecture (architecture (model_at 1)) = Some Translator /\
  dispatch (name (model_at 1)) = Generator /\
  fst r
  = Return ({| tk_origin := from_pretrained "jncraton/flan-alpaca-gpt4-xl-ct2-int8";
               tk_no_padding := false; tk_no_truncation := false |},
            Some {| h_id := 0; h_kind := Generator;
                    h_path := "/hub/jncraton/flan-alpaca-gpt4-xl-ct2-int8" |}) /\
  trace (snd r)
  = [Download "jncraton/flan-alpaca-gpt4-xl-ct2-int8" "config.json";
     Download "jncraton/flan-alpaca-gpt4-xl-ct2-int8" "model.bin";
     Download "jncraton/flan-alpaca-gpt4-xl-ct2-int8" "vocabulary.json";
     TokenizerFromPretrained "jncraton/flan-alpaca-gpt4-xl-ct2-int8";
     Construct Generator "/hub/jncraton/flan-alpaca-gpt4-xl-ct2-int8"].
Proof. vm_compute. repeat split; reflexivity. Qed.

(** * Further properties *)

(** ** More on the order of floats *)

Section FloatOrderMore.

Local Open Scope float_scope.

Lemma SFleb_ltb_trans x y z :
SFleb x y = true -> SFltb y z = true -> SFltb x z = true.
Proof.
unfold SFltb, SFleb.
destruct x as [sx|sx| |sx mx ex], y as [sy|sy| |sy my ey],
      z as [sz|sz| |sz mz ez];
  simpl; intros H1 H2; try discriminate;
  repeat match goal with
         | s : bool |- _ => destruct s
         end;
  simpl in *; try discriminate; try reflexivity;
  rewrite ?compare_cont_Eq in *;
  repeat match goal with
         | H : context [Z.compare ?a ?b] |- _ =>
             destruct (Z.compare_spec a b); simpl in H; try discriminate
         | H : context [Pos.compare ?a ?b] |- _ =>
             destruct (Pos.compare_spec a b); simpl in H; try discriminate
         | |- context [Z.compare ?a ?b] =>
             destruct (Z.compare_spec a b); simpl; try lia
         | |- context [Pos.compare ?a ?b] =>
             destruct (Pos.compare_spec a b); simpl; try lia
         end;
  subst; try lia; try reflexivity; try discriminate.
Qed.

(** [x <= y < z] gives [x < z]. *)
Lemma leb_ltb_trans x y z :
(x <=? y) = true -> (y <? z) = true -> (x <? z) = true.
Proof. rewrite !ltb_spec, leb_spec. apply SFleb_ltb_trans. Qed.

End FloatOrderMore.

(** ** Descriptors that hide later ones *)

(** A descriptor of the same purpose, no larger and passing the license
    filter alike is selectable whenever the later one is. *)
Lemma selectable_shadow model_type max_ram license_match d0 d1 :
  tuning d0 = tuning d1 ->
  (memsize d0 <=? memsize d1)%float = true ->
  licensematch license_match d0 = licensematch license_match d1 ->
  selectable model_type max_ram license_match d1 = true ->
  selectable model_type max_ram license_match d0 = true.
Proof.
  unfold selectable, sizefit. intros Ht Hm Hl.
  rewrite !andb_true_iff. intros [[H1 H2] H3].
  rewrite Ht, Hl. repeat split; auto.
  eapply leb_ltb_trans; eauto.
Qed.

Lemma scan_models_step model_type max_ram license_match d l n :
  int8 d ->
  scan_models model_type max_ram license_match (d :: l) = Return n ->
  (selectable model_type max_ram license_match d = true /\ n = name d) \/
  (selectable model_type max_ram license_match d = false /\
   scan_models model_type max_ram license_match l = Return n).
Proof.
  intros Hq. rewrite scan_models_cons by assumption.
  destruct (selectable model_type max_ram license_match d).
  - intros [= <-]. auto.
  - auto.
Qed.

(** Closes a branch in which a descriptor is selectable and an earlier one
    that hides it is not. *)
Ltac hidden :=
  exfalso;
  match goal with
  | Hj : selectable ?t ?b ?l ?j = true, Hi : selectable ?t ?b ?l ?i = false |- _ =>
      rewrite (selectable_shadow t b l i j) in Hi;
      [discriminate Hi|reflexivity|vm_compute; reflexivity|reflexivity|exact Hj]
  end.

(** Walks the loop over a list given in full. *)
Ltac walk H :=
  repeat match type of H with
         | scan_models _ _ _ (_ :: _) = _ =>
             apply scan_models_step in H; [|reflexivity];
             destruct H as [[? ->]|[? H]]
         end.

(** X1: with no pinned name, whatever the purpose, the budget and the
    license filter, [get_model_name] never returns
    ["flan-alpaca-gpt4-xl-ct2-int8"], ["fastchat-t5-3b-v1.0-ct2-int8"] or
    ["flan-alpaca-base-ct2-int8"]: each follows a descriptor of the same
    purpose, size and license; without a license filter it returns one of
    five names only, never a decoder-only model. *)
Theorem hidden_descriptors
    (env : environ) (model_type : string) (max_ram : float)
    (license_match : option Re.regex) (n : string)
    (Hpin : env pinned_name = None)
    (Hret : get_model_name env model_type max_ram license_match = Return n) :
  In n selectable_names /\ (license_match = None -> In n default_names).
Proof.
  rewrite pin_absent in Hret by assumption. unfold models in Hret.
  split.
  - walk Hret; try (simpl; tauto); try discriminate Hret; hidden.
  - intros ->.
    walk Hret; try (simpl; tauto); try discriminate Hret; hidden.
Qed.

(** The budget 1.0 without a filter, through the theorem. *)
Lemma hidden_descriptors_witness :
  In "LaMini-Flan-T5-783M-ct2-int8" selectable_names /\
  (@None Re.regex = None -> In "LaMini-Flan-T5-783M-ct2-int8" default_names).
Proof.
  apply (hidden_descriptors no_environ "instruct" 1%float None).
  - reflexivity.
  - vm_compute. reflexivity.
Defined.

(** ** Budgets too small to select anything *)









(** ** Setting and reading the budget *)

(** With a falsy [max_ram], [get_max_ram] reads the environment only. *)
Lemma get_max_ram_falsy env s1 s2 :
  PyFloat.truthy (max_ram s1) = false -> PyFloat.truthy (max_ram s2) = false ->
  fst (get_max_ram env s1) = fst (get_max_ram env s2).
Proof.
  intros H1 H2. unfold get_max_ram. rewrite !bind_run. unfold gets. cbn [fst snd].
  rewrite H1, H2.
  destruct (env "LANGUAGEMODELS_SIZE") as [v|]; [|reflexivity].
  destruct (str_truthy (Some v)); [|reflexivity].
  repeat match goal with
         | |- context [if ?b then _ else _] => destruct b; try reflexivity
         end.
Qed.

(** X4: a value [set_max_ram] accepts is what [get_max_ram] returns
    afterwards, whatever the environment holds, unless it is zero: zero is
    stored too, but [get_max_ram] then reads the environment as if nothing
    had been set, and returns 0.40 when LANGUAGEMODELS_SIZE is unset.  The
    cache and the license filter are untouched. *)
Theorem set_max_ram_then_get
    (env : environ) (value : pyval) (s : state) (x : float)
    (Hset : fst (set_max_ram value s) = Return x) :
  let s' := snd (set_max_ram value s) in
  max_ram s' = x /\ modelcache s' = modelcache s /\
  license_match s' = license_match s /\
  (PyFloat.truthy x = true -> fst (get_max_ram env s') = Return x) /\
  (PyFloat.truthy x = false -> env "LANGUAGEMODELS_SIZE" = None ->
   fst (get_max_ram env s') = Return 0.40%float) /\
  (PyFloat.truthy x = false ->
   forall s2, PyFloat.truthy (max_ram s2) = false ->
              fst (get_max_ram env s') = fst (get_max_ram env s2)).
Proof.
  cbv zeta. rewrite set_max_ram_run in *.
  destruct (convert_to_gb value) as [y|e]; [|discriminate Hset].
  simpl in Hset. injection Hset as ->. cbn [snd].
  repeat split.
  - intros Hx. unfold get_max_ram, bind, gets. simpl. rewrite Hx. reflexivity.
  - intros Hx Henv. unfold get_max_ram, bind, gets. simpl. rewrite Hx, Henv.
    reflexivity.
  - intros Hx s2 H2. apply get_max_ram_falsy; [exact Hx|exact H2].
Qed.

(** [set_max_ram("0gb")] with no environment, through the theorem. *)
Lemma set_max_ram_then_get_witness :
  fst (get_max_ram no_environ (snd (set_max_ram (PStr "0gb") (initial_state None))))
  = Return 0.40%float.
Proof.
  assert (Hset : fst (set_max_ram (PStr "0gb") (initial_state None)) = Return 0%float)
    by (vm_compute; reflexivity).
  destruct (set_max_ram_then_get no_environ (PStr "0gb") (initial_state None)
              0%float Hset) as (_ & _ & _ & _ & H & _).
  apply H; reflexivity.
Defined.

(** X5: [get_max_ram] raises [e] exactly when [max_ram] is falsy and
    LANGUAGEMODELS_SIZE holds a non-empty string that, in lower case, is not
    a tier name and is a size on which [convert_to_gb] raises [e]; the
    exception is then the ValueError or IndexError of [convert_to_gb], and a
    [get_model] in that state raises it too, before anything is fetched or
    changed.  A tier name, in whatever case, is answered before
    [convert_to_gb] is asked, which raises ValueError on each of them. *)
Theorem get_max_ram_raises (env : environ) (s : state) (e : exn) :
  (fst (get_max_ram env s) = Raise e <->
   PyFloat.truthy (max_ram s) = false /\
   exists v, env "LANGUAGEMODELS_SIZE" = Some v /\ v <> ""%string /\
             ~ In (PyStr.lower v) tiers /\
             convert_to_gb (PStr (PyStr.lower v)) = Raise e) /\
  (fst (get_max_ram env s) = Raise e ->
   (e = ValueError \/ e = IndexError) /\
   forall ext model_type tokenizer_only,
     get_model env ext model_type tokenizer_only s = (Raise e, s)) /\
  (forall v, env "LANGUAGEMODELS_SIZE" = Some v -> In (PyStr.lower v) tiers ->
             PyFloat.truthy (max_ram s) = false ->
             exists x, fst (get_max_ram env s) = Return x /\
                       In x [0.2; 0.40; 1; 4; 16]%float) /\
  map (fun t => convert_to_gb (PStr t)) tiers
  = [Raise ValueError; Raise ValueError; Raise ValueError; Raise ValueError;
     Raise ValueError].
Proof.
  assert (Hiff : fst (get_max_ram env s) = Raise e <->
                 PyFloat.truthy (max_ram s) = false /\
                 exists v, env "LANGUAGEMODELS_SIZE" = Some v /\ v <> ""%string /\
                           ~ In (PyStr.lower v) tiers /\
                           convert_to_gb (PStr (PyStr.lower v)) = Raise e).
  { unfold get_max_ram. rewrite bind_run. unfold gets. cbn [fst snd].
    destruct (PyFloat.truthy (max_ram s)).
    { split; [discriminate|intros (H & _); discriminate]. }
    destruct (env "LANGUAGEMODELS_SIZE") as [v|].
    2:{ split; [discriminate|intros (_ & v & Hv & _); discriminate]. }
    unfold str_truthy. destruct (String.eqb_spec v "") as [->|Hv]; cbn [negb].
    { split; [discriminate|].
      intros (_ & v & Hv & Hne & _). injection Hv as <-. contradiction. }
    destruct (String.eqb_spec (PyStr.lower v) "small") as [E|N1].
    { split; [discriminate|]. intros (_ & v' & Hv' & _ & Hnot & _).
      injection Hv' as <-. exfalso. apply Hnot. rewrite E. simpl. tauto. }
    destruct (String.eqb_spec (PyStr.lower v) "base") as [E|N2].
    { split; [discriminate|]. intros (_ & v' & Hv' & _ & Hnot & _).
      injection Hv' as <-. exfalso. apply Hnot. rewrite E. simpl. tauto. }
    destruct (String.eqb_spec (PyStr.lower v) "large") as [E|N3].
    { split; [discriminate|]. intros (_ & v' & Hv' & _ & Hnot & _).
      injection Hv' as <-. exfalso. apply Hnot. rewrite E. simpl. tauto. }
    destruct (String.eqb_spec (PyStr.lower v) "xl") as [E|N4].
    { split; [discriminate|]. intros (_ & v' & Hv' & _ & Hnot & _).
      injection Hv' as <-. exfalso. apply Hnot. rewrite E. simpl. tauto. }
    destruct (String.eqb_spec (PyStr.lower v) "xxl") as [E|N5].
    { split; [discriminate|]. intros (_ & v' & Hv' & _ & Hnot & _).
      injection Hv' as <-. exfalso. apply Hnot. rewrite E. simpl. tauto. }
    unfold lift. cbn [fst]. split.
    - intros H. split; [reflexivity|]. exists v. repeat split; auto.
      simpl. intros [H'|[H'|[H'|[H'|[H'|[]]]]]]; congruence.
    - intros (_ & v' & Hv' & _ & _ & Hc). injection Hv' as <-. exact Hc. }
  split; [exact Hiff|]. split; [|split].
  - intros Hraise. destruct (proj1 Hiff Hraise) as (_ & v & _ & _ & _ & Hc). split.
    + destruct (convert_to_gb_str_error _ _ Hc) as [?|[? _]]; auto.
    + intros ext model_type tokenizer_only. rewrite get_model_run.
      unfold resolve. rewrite bind_run, Hraise. reflexivity.
  - intros v Hv Hin Hf. unfold get_max_ram. rewrite bind_run. unfold gets.
    cbn [fst snd]. rewrite Hf, Hv.
    assert (Hne : str_truthy (Some v) = true).
    { unfold str_truthy. destruct (String.eqb_spec v "") as [->|]; [|reflexivity].
      exfalso. revert Hin. vm_compute. intuition discriminate. }
    rewrite Hne.
    simpl in Hin.
    destruct Hin as [<-|[<-|[<-|[<-|[<-|[]]]]]]; eexists;
      (split; [reflexivity|simpl; tauto]).
  - vm_compute. reflexivity.
Qed.

(** LANGUAGEMODELS_SIZE=huge after [set_max_ram(0)], through the theorem. *)
Lemma get_max_ram_raises_witness :
  (ValueError = ValueError \/ ValueError = IndexError) /\
  forall ext model_type tokenizer_only,
    get_model (environ_with "LANGUAGEMODELS_SIZE" "huge") ext model_type tokenizer_only
      (set_max_ram_field 0%float (initial_state None))
    = (Raise ValueError, set_max_ram_field 0%float (initial_state None)).
Proof.
  apply (get_max_ram_raises (environ_with "LANGUAGEMODELS_SIZE" "huge")
           (set_max_ram_field 0%float (initial_state None)) ValueError).
  vm_compute. reflexivity.
Defined.

(** ** Sizes written as strings *)

Section SizeStrings.

Local Open Scope string_scope.

Lemma lower_ascii_idem c : PyStr.lower_ascii (PyStr.lower_ascii c) = PyStr.lower_ascii c.
Proof. destruct c as [[] [] [] [] [] [] [] []]; reflexivity. Qed.

Lemma is_space_lower c : PyFloat.is_space (PyStr.lower_ascii c) = PyFloat.is_space c.
Proof. destruct c as [[] [] [] [] [] [] [] []]; reflexivity. Qed.

Lemma classify_lower c : PyFloat.classify (PyStr.lower_ascii c) = PyFloat.classify c.
Proof. destruct c as [[] [] [] [] [] [] [] []]; reflexivity. Qed.

Lemma lower_idem s : PyStr.lower (PyStr.lower s) = PyStr.lower s.
Proof.
induction s as [|c s IH]; [reflexivity|].
simpl. rewrite lower_ascii_idem, IH. reflexivity.
Qed.

Lemma lower_length s : String.length (PyStr.lower s) = String.length s.
Proof. induction s as [|c s IH]; simpl; congruence. Qed.

Lemma lower_app s t : PyStr.lower (s ++ t) = PyStr.lower s ++ PyStr.lower t.
Proof. induction s as [|c s IH]; simpl; congruence. Qed.

Lemma repeat_app c j k :
PyStr.repeat c (j + k) = PyStr.repeat c j ++ PyStr.repeat c k.
Proof. induction j as [|j IH]; simpl; congruence. Qed.

(** Stripping ignores how many of the stripped character end the string. *)
Lemma rstrip_more c t k : PyStr.rstrip c (t ++ PyStr.repeat c k) = PyStr.rstrip c t.
Proof.
destruct (rstrip_spec c t) as [[j Hj] Hl].
rewrite Hj at 1. rewrite append_assoc, <- repeat_app.
apply rstrip_app_repeat. exact Hl.
Qed.

Lemma lstrip_lower s : PyFloat.lstrip (PyStr.lower s) = PyStr.lower (PyFloat.lstrip s).
Proof.
induction s as [|c s IH]; [reflexivity|].
simpl. rewrite is_space_lower. destruct (PyFloat.is_space c); [exact IH|reflexivity].
Qed.

Lemma rstrip_lower s : PyFloat.rstrip (PyStr.lower s) = PyStr.lower (PyFloat.rstrip s).
Proof.
induction s as [|c s IH]; [reflexivity|].
simpl. rewrite IH, is_space_lower.
destruct (PyFloat.rstrip s); simpl; [destruct (PyFloat.is_space c)|]; reflexivity.
Qed.

Lemma step_lower st c : PyFloat.step st (PyStr.lower_ascii c) = PyFloat.step st c.
Proof. unfold PyFloat.step. rewrite classify_lower. reflexivity. Qed.

Lemma run_lower st l : PyFloat.run st (PyStr.lower l) = PyFloat.run st l.
Proof.
revert st. induction l as [|c l IH]; intros st; [reflexivity|].
simpl. rewrite step_lower.
destruct (PyFloat.step st c); [apply IH|reflexivity].
Qed.

Lemma absfloatvalue_lower neg l :
PyFloat.absfloatvalue neg (PyStr.lower l) = PyFloat.absfloatvalue neg l.
Proof.
unfold PyFloat.absfloatvalue, PyFloat.floatnumber.
rewrite lower_idem, run_lower. reflexivity.
Qed.

(** [float] reads a string and its lower-cased form alike. *)
Lemma of_string_lower s : PyFloat.of_string (PyStr.lower s) = PyFloat.of_string s.
Proof.
unfold PyFloat.of_string, PyFloat.strip.
rewrite lstrip_lower, rstrip_lower.
destruct (PyFloat.rstrip (PyFloat.lstrip s)) as [|c l]; [reflexivity|].
change (PyStr.lower (String c l))
  with (String (PyStr.lower_ascii c) (PyStr.lower l)).
cbv beta iota. rewrite classify_lower.
destruct (PyFloat.classify c);
  change (String (PyStr.lower_ascii c) (PyStr.lower l))
    with (PyStr.lower (String c l));
  rewrite absfloatvalue_lower; reflexivity.
Qed.

End SizeStrings.

(** X6: [convert_to_gb] and [set_max_ram] ignore any run of [b] and [B] at
    the end of a string: with or without it the result, value or exception,
    is the same. *)
Theorem trailing_b_ignored (s w : string) (k : nat)
    (Hw : PyStr.lower w = PyStr.repeat "b" k) :
  convert_to_gb (PStr (s ++ w)) = convert_to_gb (PStr s) /\
  (forall st, set_max_ram (PStr (s ++ w)) st = set_max_ram (PStr s) st).
Proof.
  assert (H : convert_to_gb (PStr (s ++ w)) = convert_to_gb (PStr s)).
  { unfold convert_to_gb. rewrite lower_app, Hw, rstrip_more. reflexivity. }
  split; [exact H|]. intros st. rewrite !set_max_ram_run, H. reflexivity.
Qed.

(** ["4g"] followed by ["Bb"], through the theorem. *)
Lemma trailing_b_ignored_witness :
  convert_to_gb (PStr "4gBb") = convert_to_gb (PStr "4g") /\
  (forall st, set_max_ram (PStr "4gBb") st = set_max_ram (PStr "4g") st).
Proof. apply (trailing_b_ignored "4g" "Bb" 2). reflexivity. Defined.

(** X7: every string [float] accepts is a size: [convert_to_gb] gives it the
    value [float] gives it, that value times 1.0 when [g], [G], [gb], ...
    follows, and that value times [2 ** -10] when [m], [M], [mb], ...
    follows. *)
Theorem float_strings_are_sizes (s : string) (x : float)
    (Hfloat : PyFloat.of_string s = Some x) :
  convert_to_gb (PStr s) = Return x /\
  (forall w, PyStr.lower w = "g"%string \/ PyStr.lower w = "gb"%string ->
             convert_to_gb (PStr (s ++ w)) = Return (x * 1)%float) /\
  (forall w, PyStr.lower w = "m"%string \/ PyStr.lower w = "mb"%string ->
             convert_to_gb (PStr (s ++ w)) = Return (x * 0.0009765625)%float).
Proof.
  assert (Hlow : PyFloat.of_string (PyStr.lower s) = Some x)
    by (rewrite of_string_lower; exact Hfloat).
  split; [|split].
  - apply convert_to_gb_str. exists (PyStr.lower s), ""%string, 0, x.
    split; [simpl; rewrite append_empty_r; reflexivity|].
    split; [exact Hlow|]. left. auto.
  - intros w Hw. apply convert_to_gb_str.
    exists (PyStr.lower s), "g"%string, (String.length w - 1), x.
    split; [|split; [exact Hlow|right; left; auto]].
    rewrite lower_app, <- (lower_length w).
    destruct Hw as [-> | ->]; reflexivity.
  - intros w Hw. apply convert_to_gb_str.
    exists (PyStr.lower s), "m"%string, (String.length w - 1), x.
    split; [|split; [exact Hlow|right; right; auto]].
    rewrite lower_app, <- (lower_length w).
    destruct Hw as [-> | ->]; reflexivity.
Qed.

(** The string ["1.5E3"], through the theorem. *)
Lemma float_strings_are_sizes_witness :
  convert_to_gb (PStr "1.5E3") = Return 1500%float /\
  convert_to_gb (PStr "1.5E3Mb") = Return (1500 * 0.0009765625)%float.
Proof.
  destruct (float_strings_are_sizes "1.5E3" 1500%float) as (H1 & _ & H3).
  - vm_compute. reflexivity.
  - split; [exact H1|]. apply (H3 "Mb"). right. reflexivity.
Defined.

(** ** Loading a model that is not cached, in full *)

Section LoadFreshRun.

Variables (ext : externals) (model_name : string).

(** What [load_fresh] leaves: on a failure the state but for the trace; on
  a return one entry more, holding the tokenizer of the branch and, for a
  full request, a model object built last. *)
Lemma load_fresh_run tokenizer_only s :
let r := load_fresh ext model_name tokenizer_only s in
max_ram (snd r) = max_ram s /\ license_match (snd r) = license_match s /\
match fst r with
| Raise _ => modelcache (snd r) = modelcache s /\ runtime_kept s (snd r)
| Return _ =>
    exists model,
      modelcache (snd r)
      = dict_set model_name
          (tokenizer_for model_name (tok_config_of ext model_name), model)
          (modelcache s) /\
      if tokenizer_only
      then model = None /\ runtime_kept s (snd r)
      else exists path,
          ext_download ext ("jncraton/" ++ model_name) "model.bin" = Return path /\
          model = Some {| h_id := next_id s; h_kind := dispatch model_name;
                          h_path := PyStr.drop_last 10 path |} /\
          next_id (snd r) = S (next_id s) /\
          resident (snd r) = next_id s :: resident s
end.
Proof.
unfold load_fresh, tokenizer_for, tok_config_of, hf_hub_download,
  Tokenizer_from_pretrained, Tokenizer_from_file, build_model, ctranslate2_new,
  store, outcome, bind, modify, lift, gets, ret, raise, runtime_kept.
cbv zeta.
destruct (ext_download ext ("jncraton/" ++ model_name) "config.json");
  [|simpl; auto].
destruct (ext_download ext ("jncraton/" ++ model_name) "model.bin") as [path|];
  [|simpl; auto].
destruct (dispatch model_name).
- destruct (ext_download ext ("jncraton/" ++ model_name) "vocabulary.txt");
    [|simpl; auto].
  destruct (ext_from_pretrained ext ("jncraton/" ++ model_name)); [simpl; auto|].
  destruct tokenizer_only; simpl.
  + repeat split. eexists. split; [reflexivity|]. auto.
  + destruct (ext_construct ext Encoder (PyStr.drop_last 10 path)); simpl; auto.
    repeat split. eexists. split; [reflexivity|]. eauto.
- destruct (ext_download ext ("jncraton/" ++ model_name) "vocabulary.json");
    [|simpl; auto].
  destruct (ext_from_pretrained ext ("jncraton/" ++ model_name)); [simpl; auto|].
  destruct tokenizer_only; simpl.
  + repeat split. eexists. split; [reflexivity|]. auto.
  + destruct (ext_construct ext Generator (PyStr.drop_last 10 path)); simpl; auto.
    repeat split. eexists. split; [reflexivity|]. eauto.
- destruct (ext_download ext ("jncraton/" ++ model_name) "shared_vocabulary.txt");
    [|simpl; auto].
  destruct (ext_download ext ("jncraton/" ++ model_name) "tokenizer.json")
    as [tok_config|]; [|simpl; auto].
  destruct (ext_from_file ext tok_config); [simpl; auto|].
  destruct tokenizer_only; simpl.
  + repeat split. eexists. split; [reflexivity|]. auto.
  + destruct (ext_construct ext Translator (PyStr.drop_last 10 path)); simpl; auto.
    repeat split. eexists. split; [reflexivity|]. eauto.
Qed.

End LoadFreshRun.

(** ** The runtime during eviction and reload *)

Lemma fetches_app l1 l2 : fetches (l1 ++ l2) = fetches l1 ++ fetches l2.
Proof.
  induction l1 as [|e l1 IH]; [reflexivity|].
  destruct e; simpl; rewrite IH; reflexivity.
Qed.

Lemma remove_id_In x n l : In x (remove_id n l) <-> In x l /\ x <> n.
Proof.
  unfold remove_id. rewrite filter_In.
  destruct (Nat.eqb_spec x n); simpl; intuition congruence.
Qed.

Section EvictionRuntime.

Variables (ext : externals) (model_name : string).

(** One step of the loop: no object is built, nothing is fetched, and the
  resident objects are those there were, less the one unloaded. *)
Lemma try_unload_runtime key s :
let r := except_AttributeError (unload_model ext key) s in
next_id (snd r) = next_id s /\
fetches (trace (snd r)) = fetches (trace s) /\
(forall x, In x (resident (snd r)) -> In x (resident s)) /\
(forall t h, dict_get key (modelcache s) = Some (t, Some h) ->
             ext_unload ext h = None ->
             resident (snd r) = remove_id (h_id h) (resident s)).
Proof.
cbv zeta. unfold except_AttributeError. rewrite unload_model_run.
destruct (dict_get key (modelcache s)) as [[t [h|]]|].
- cbv zeta. destruct (ext_unload ext h) as [e|] eqn:E.
  + destruct e; simpl; rewrite ?fetches_app; simpl; rewrite ?app_nil_r;
      repeat split; auto; intros t' h' [= _ <-]; congruence.
  + simpl. rewrite fetches_app. simpl. rewrite app_nil_r.
    repeat split; auto.
    * intros x Hx. apply remove_id_In in Hx. tauto.
    * intros t' h' [= _ <-] _. reflexivity.
- simpl. rewrite fetches_app. simpl. rewrite app_nil_r.
  repeat split; auto. discriminate.
- simpl. repeat split; auto. discriminate.
Qed.

Lemma evict_runtime keys s :
let s' := snd (evict ext model_name keys s) in
next_id s' = next_id s /\
fetches (trace s') = fetches (trace s) /\
(forall x, In x (resident s') -> In x (resident s)).
Proof.
cbv zeta. revert s. induction keys as [|key rest IH]; intros s.
- simpl. auto.
- rewrite evict_cons. destruct (negb (String.eqb key model_name)); [|apply IH].
  destruct (try_unload_runtime key s) as (Hn & Hf & Hr & _).
  destruct (fst (except_AttributeError (unload_model ext key) s)).
  + destruct (IH (snd (except_AttributeError (unload_model ext key) s)))
      as (Hn' & Hf' & Hr').
    rewrite Hn', Hf'. auto.
  + simpl snd. auto.
Qed.

(** When the loop returns, every other cached model that could be unloaded
  is no longer resident. *)
Lemma evict_unloaded keys s :
fst (evict ext model_name keys s) = Return tt ->
forall key t h,
  In key keys -> key <> model_name ->
  dict_get key (modelcache s) = Some (t, Some h) ->
  ext_unload ext h = None ->
  ~ In (h_id h) (resident (snd (evict ext model_name keys s))).
Proof.
revert s. induction keys as [|k rest IH]; intros s Hret key t h Hin Hne Hget Hext;
  [destruct Hin|].
rewrite evict_cons in *.
destruct (String.eqb_spec k model_name) as [->|Hk]; cbn [negb] in *.
- destruct Hin as [<-|Hin]; [contradiction|]. eapply IH; eauto.
- pose proof (try_unload_frame ext k s) as (Hc & _).
  destruct (try_unload_runtime k s) as (_ & _ & _ & Hrem).
  destruct (fst (except_AttributeError (unload_model ext k) s)) as [[]|e];
    [|discriminate Hret].
  destruct (string_dec key k) as [->|Hkk].
  + intros Hx.
    destruct (evict_runtime rest (snd (except_AttributeError (unload_model ext k) s)))
      as (_ & _ & Hsub).
    apply Hsub in Hx. rewrite (Hrem t h Hget Hext) in Hx.
    apply remove_id_In in Hx. tauto.
  + destruct Hin as [->|Hin]; [contradiction|].
    eapply IH; eauto. rewrite Hc. exact Hget.
Qed.

(** The reload builds nothing and fetches nothing; a handle that loads is
  resident afterwards, and only its own residency changes. *)
Lemma reload_runtime s :
let r := reload ext model_name s in
next_id (snd r) = next_id s /\
fetches (trace (snd r)) = fetches (trace s) /\
(forall t h, dict_get model_name (modelcache s) = Some (t, Some h) ->
             (ext_load ext h = None ->
              fst r = Return tt /\ In (h_id h) (resident (snd r))) /\
             (forall x, x <> h_id h ->
                        In x (resident (snd r)) -> In x (resident s))) /\
(forall t, dict_get model_name (modelcache s) = Some (t, None) ->
           fst r = Return tt /\ resident (snd r) = resident s).
Proof.
cbv zeta. unfold reload, except_AttributeError. rewrite load_model_run.
destruct (dict_get model_name (modelcache s)) as [[t [h|]]|].
- cbv zeta. destruct (ext_load ext h) as [e|] eqn:E.
  + assert (Hs : forall r0 : result unit,
               next_id (log (LoadModel model_name (Some h)) s) = next_id s /\
               fetches (trace (log (LoadModel model_name (Some h)) s))
               = fetches (trace s) /\
               (forall t0 h0, Some (t, Some h) = Some (t0, Some h0) ->
                  (ext_load ext h0 = None ->
                   r0 = Return tt /\
                   In (h_id h0) (resident (log (LoadModel model_name (Some h)) s))) /\
                  (forall x, x <> h_id h0 ->
                     In x (resident (log (LoadModel model_name (Some h)) s)) ->
                     In x (resident s))) /\
               (forall t0, Some (t, Some h) = Some (t0, None) ->
                  r0 = Return tt /\
                  resident (log (LoadModel model_name (Some h)) s) = resident s)).
    { intros r0. split; [reflexivity|]. split.
      - simpl. rewrite fetches_app. simpl. apply app_nil_r.
      - split.
        + intros t0 h0 [= _ <-]. split; [congruence|auto].
        + discriminate. }
    destruct e; apply Hs.
  + cbn [fst snd]. split; [reflexivity|]. split.
    * simpl. rewrite fetches_app. simpl. apply app_nil_r.
    * split.
      -- intros t0 h0 [= _ <-]. split.
         ++ intros _. split; [reflexivity|]. left. reflexivity.
         ++ intros x Hx [Hin|Hin]; [congruence|].
            apply remove_id_In in Hin. tauto.
      -- discriminate.
- cbn [fst snd]. split; [reflexivity|]. split.
  + simpl. rewrite fetches_app. simpl. apply app_nil_r.
  + split; [discriminate|]. intros t0 _. split; reflexivity.
- cbn [fst snd]. split; [reflexivity|]. split; [reflexivity|].
  split; discriminate.
Qed.

End EvictionRuntime.

(** ** [get_model], outcome by outcome *)

Lemma is_resident_In h s : is_resident h s = true <-> In (h_id h) (resident s).
Proof.
  unfold is_resident. rewrite existsb_exists. split.
  - intros (x & Hin & Hx). apply Nat.eqb_eq in Hx. congruence.
  - intros Hin. exists (h_id h). split; [exact Hin|apply Nat.eqb_refl].
Qed.

Lemma is_resident_not_In h s : is_resident h s = false <-> ~ In (h_id h) (resident s).
Proof.
  rewrite <- is_resident_In. destruct (is_resident h s); split; congruence.
Qed.

Section Outcomes.

Variables (env : environ) (ext : externals) (model_name : string)
        (tokenizer_only : bool).

Lemma load_or_reload_run s :
load_or_reload ext model_name tokenizer_only s =
if dict_mem model_name (modelcache s)
then if tokenizer_only then (Return tt, s) else reload ext model_name s
else load_fresh ext model_name tokenizer_only s.
Proof.
unfold load_or_reload. rewrite bind_run. unfold gets. cbn [fst snd].
destruct (dict_mem model_name (modelcache s)); [|reflexivity].
destruct tokenizer_only; reflexivity.
Qed.

Lemma eviction_pass_run budget s :
eviction_pass ext model_name budget tokenizer_only s =
if must_evict budget tokenizer_only
then evict ext model_name (dict_keys (modelcache s)) s
else (Return tt, s).
Proof.
unfold eviction_pass. destruct (must_evict budget tokenizer_only); reflexivity.
Qed.

(** The eviction pass builds and fetches nothing and makes nothing
  resident. *)
Lemma eviction_pass_runtime budget s :
let s1 := snd (eviction_pass ext model_name budget tokenizer_only s) in
frame s s1 /\ next_id s1 = next_id s /\
fetches (trace s1) = fetches (trace s) /\
(forall x, In x (resident s1) -> In x (resident s)) /\
(tokenizer_only = true -> s1 = s).
Proof.
cbv zeta. split; [apply pass_frame|].
rewrite eviction_pass_run. unfold must_evict.
destruct tokenizer_only; [rewrite andb_false_r; simpl; auto|].
destruct ((budget <? 4)%float && negb false).
- destruct (evict_runtime ext model_name (dict_keys (modelcache s)) s)
    as (? & ? & ?).
  repeat split; auto; discriminate.
- simpl. repeat split; auto; discriminate.
Qed.

(** A lookup of [model_name] after the load-or-reload step has returned
  finds an entry. *)
Lemma load_or_reload_entry s :
fst (load_or_reload ext model_name tokenizer_only s) = Return tt ->
exists pair,
  dict_get model_name
    (modelcache (snd (load_or_reload ext model_name tokenizer_only s))) = Some pair.
Proof.
rewrite load_or_reload_run. unfold dict_mem.
destruct (dict_get model_name (modelcache s)) as [pair|] eqn:Hg.
- intros _. exists pair.
  destruct tokenizer_only; [exact Hg|].
  destruct (quiet_reload ext model_name s) as ((-> & _) & _). exact Hg.
- intros Hr.
  pose proof (load_fresh_run ext model_name tokenizer_only s) as (_ & _ & H).
  rewrite Hr in H. destruct H as (model & -> & _).
  eexists. apply dict_get_set_same.
Qed.

(** The step keeps the budget and the license filter, whatever it does to
  the cache. *)
Lemma load_or_reload_settings s :
let s' := snd (load_or_reload ext model_name tokenizer_only s) in
max_ram s' = max_ram s /\ license_match s' = license_match s.
Proof.
cbv zeta. rewrite load_or_reload_run.
destruct (dict_mem model_name (modelcache s)).
- destruct tokenizer_only; [auto|].
  destruct (quiet_reload ext model_name s) as ((_ & ? & ?) & _). auto.
- pose proof (load_fresh_run ext model_name tokenizer_only s) as (? & ? & _).
  auto.
Qed.

(** When the step raises, the cache is as it was. *)
Lemma load_or_reload_raises s e :
fst (load_or_reload ext model_name tokenizer_only s) = Raise e ->
modelcache (snd (load_or_reload ext model_name tokenizer_only s)) = modelcache s.
Proof.
rewrite load_or_reload_run.
destruct (dict_mem model_name (modelcache s)).
- destruct tokenizer_only; [discriminate|]. intros _.
  destruct (quiet_reload ext model_name s) as ((? & _) & _). assumption.
- intros Hr.
  pose proof (load_fresh_run ext model_name tokenizer_only s) as (_ & _ & H).
  rewrite Hr in H. apply H.
Qed.

Lemma get_model_named_raises s e :
fst (get_model_named env ext model_name tokenizer_only s) = Raise e ->
frame s (snd (get_model_named env ext model_name tokenizer_only s)).
Proof.
destruct (fst (get_max_ram env s)) as [budget|e0] eqn:Hb.
2:{ rewrite (get_model_named_no_budget env ext model_name tokenizer_only s e0 Hb).
    intros _. apply frame_refl. }
rewrite (get_model_named_run env ext model_name tokenizer_only s budget Hb).
pose proof (pass_frame ext model_name tokenizer_only budget s) as Hp.
destruct (fst (eviction_pass ext model_name budget tokenizer_only s)) as [[]|e1];
  [|intros _; exact Hp].
cbv zeta.
set (s1 := snd (eviction_pass ext model_name budget tokenizer_only s)) in *.
destruct (load_or_reload_settings s1) as (Hm & Hl).
destruct (fst (load_or_reload ext model_name tokenizer_only s1)) as [[]|e2] eqn:Hf.
- destruct (load_or_reload_entry s1 Hf) as (pair & ->). discriminate.
- intros _. cbn [snd]. eapply frame_trans; [exact Hp|].
  repeat split; auto. exact (load_or_reload_raises s1 e2 Hf).
Qed.

End Outcomes.

(** X8: a [get_model] that raises, at whatever step, leaves [modelcache],
    [max_ram] and [license_match] as they were: no entry is stored unless
    the call returns. *)
Theorem failed_get_model_keeps_globals
    (env : environ) (ext : externals) (model_type : string) (tokenizer_only : bool)
    (s : state) (e : exn)
    (Hraise : fst (get_model env ext model_type tokenizer_only s) = Raise e) :
  frame s (snd (get_model env ext model_type tokenizer_only s)).
Proof.
  rewrite get_model_run in *.
  destruct (fst (resolve env model_type s)) as [n|e0]; [|apply frame_refl].
  eapply get_model_named_raises. exact Hraise.
Qed.

(** An unreachable hub, through the theorem. *)
Lemma failed_get_model_keeps_globals_witness :
  frame state_instruct_loaded
    (snd (get_model no_environ ext_offline "embedding" false state_instruct_loaded)).
Proof.
  apply (failed_get_model_keeps_globals no_environ ext_offline "embedding" false
           state_instruct_loaded (ExternalError "offline")).
  vm_compute. reflexivity.
Defined.

(** A request for a cached name, step by step. *)
Lemma get_model_named_hit
    (env : environ) (ext : externals) (model_name : string)
    (tokenizer_only : bool) (s : state)
    (Hmem : dict_mem model_name (modelcache s) = true) :
  let r := get_model_named env ext model_name tokenizer_only s in
  modelcache (snd r) = modelcache s /\
  fetches (trace (snd r)) = fetches (trace s) /\
  next_id (snd r) = next_id s /\
  (forall pair, fst r = Return pair -> dict_get model_name (modelcache s) = Some pair).
Proof.
  cbv zeta.
  destruct (fst (get_max_ram env s)) as [budget|e0] eqn:Hb.
  2:{ rewrite (get_model_named_no_budget env ext model_name tokenizer_only s e0 Hb).
      repeat split; auto. discriminate. }
  rewrite (get_model_named_run env ext model_name tokenizer_only s budget Hb).
  destruct (eviction_pass_runtime ext model_name tokenizer_only budget s)
    as ((Hc & _) & Hn & Hf & _).
  destruct (fst (eviction_pass ext model_name budget tokenizer_only s)) as [[]|e1].
  2:{ cbn [fst snd]. repeat split; auto. discriminate. }
  cbv zeta.
  set (s1 := snd (eviction_pass ext model_name budget tokenizer_only s)) in *.
  rewrite (load_or_reload_run ext model_name tokenizer_only s1).
  rewrite Hc, Hmem.
  assert (Hstep : let r2 := if tokenizer_only then (Return tt, s1)
                            else reload ext model_name s1 in
                  modelcache (snd r2) = modelcache s /\
                  fetches (trace (snd r2)) = fetches (trace s) /\
                  next_id (snd r2) = next_id s).
  { cbv zeta. destruct tokenizer_only; [cbn [snd]; auto|].
    destruct (quiet_reload ext model_name s1) as ((Hc2 & _) & _).
    destruct (reload_runtime ext model_name s1) as (Hn2 & Hf2 & _).
    rewrite Hc2, Hn2, Hf2. auto. }
  cbv zeta in Hstep. destruct Hstep as (Hc2 & Hf2 & Hn2).
  destruct (fst (if tokenizer_only then (Return tt, s1) else reload ext model_name s1))
    as [[]|e2].
  - rewrite Hc2.
    destruct (dict_get model_name (modelcache s)) as [pair|]; cbn [fst snd];
      repeat split; auto; congruence.
  - cbn [fst snd]. repeat split; auto. discriminate.
Qed.


(** X9: for a name already in the cache [get_model] fetches no file, reads
    no tokenizer and builds no model, whatever [tokenizer_only] is; the
    cache stays as it is, and the pair returned is the entry that was
    there. *)
Theorem cached_name_is_not_fetched
    (env : environ) (ext : externals) (model_type model_name : string)
    (tokenizer_only : bool) (s : state)
    (Hname : fst (resolve env model_type s) = Return model_name)
    (Hmem : dict_mem model_name (modelcache s) = true) :
  let r := get_model env ext model_type tokenizer_only s in
  modelcache (snd r) = modelcache s /\
  fetches (trace (snd r)) = fetches (trace s) /\
  next_id (snd r) = next_id s /\
  (forall pair, fst r = Return pair -> dict_get model_name (modelcache s) = Some pair).
Proof.
  cbv zeta. rewrite get_model_run, Hname.
  apply get_model_named_hit. exact Hmem.
Qed.

(** A second request for the instruct model, through the theorem. *)
Lemma cached_name_is_not_fetched_witness :
  let r := get_model no_environ ext_offline "instruct" false state_instruct_loaded in
  modelcache (snd r) = modelcache state_instruct_loaded /\
  fetches (trace (snd r)) = fetches (trace state_instruct_loaded) /\
  next_id (snd r) = next_id state_instruct_loaded /\
  (forall pair, fst r = Return pair ->
                dict_get "LaMini-Flan-T5-248M-ct2-int8"
                  (modelcache state_instruct_loaded) = Some pair).
Proof.
  apply (cached_name_is_not_fetched no_environ ext_offline "instruct"
           "LaMini-Flan-T5-248M-ct2-int8" false state_instruct_loaded);
    vm_compute; reflexivity.
Defined.

(** X10: a tokenizer-only request never touches the runtime: it builds,
    loads and unloads no model object, whether it returns or raises, and
    the pair it returns for a name that was not cached holds no model. *)
Theorem tokenizer_only_keeps_runtime
    (env : environ) (ext : externals) (model_type : string) (s : state) :
  let r := get_model env ext model_type true s in
  runtime_kept s (snd r) /\
  unload_requests (trace (snd r)) = unload_requests (trace s) /\
  (forall model_name pair,
      fst (resolve env model_type s) = Return model_name ->
      dict_mem model_name (modelcache s) = false ->
      fst r = Return pair ->
      pair = (tokenizer_for model_name (tok_config_of ext model_name), None)).
Proof.
  cbv zeta. rewrite get_model_run.
  destruct (fst (resolve env model_type s)) as [n|e0].
  2:{ repeat split; auto; discriminate. }
  destruct (fst (get_max_ram env s)) as [budget|e1] eqn:Hb.
  2:{ rewrite (get_model_named_no_budget env ext n true s e1 Hb).
      repeat split; auto; discriminate. }
  rewrite (get_model_named_run env ext n true s budget Hb).
  destruct (eviction_pass_runtime ext n true budget s) as (_ & _ & _ & _ & Hs).
  rewrite (Hs eq_refl).
  destruct (fst (eviction_pass ext n budget true s)) as [[]|e2].
  2:{ cbn [fst snd]. repeat split; auto; discriminate. }
  cbv zeta. rewrite (load_or_reload_run ext n true s).
  destruct (dict_mem n (modelcache s)) eqn:Hm.
  - cbn [fst snd].
    destruct (dict_get n (modelcache s)); cbn [fst snd];
      repeat split; auto; intros ? ? [= <-]; congruence.
  - pose proof (load_fresh_run ext n true s) as (_ & _ & H).
    destruct (load_fresh_stores ext n true s)
      as [(e & _ & _ & evs & Ht & Hu)|(_ & entry & s1 & (_ & evs & Ht & Hu) & Hsnd)].
    + destruct (fst (load_fresh ext n true s)) as [[]|e3].
      * destruct H as (model & Hc & -> & Hk). rewrite Hc, dict_get_set_same.
        cbn [fst snd]. split; [exact Hk|]. split.
        -- rewrite Ht, unload_requests_app, Hu. apply app_nil_r.
        -- intros ? ? [= <-] _ [= <-]. reflexivity.
      * cbn [fst snd]. destruct H as (_ & Hk). split; [exact Hk|]. split.
        -- rewrite Ht, unload_requests_app, Hu. apply app_nil_r.
        -- discriminate.
    + assert (Htr : unload_requests (trace (snd (load_fresh ext n true s)))
                    = unload_requests (trace s)).
      { rewrite Hsnd. simpl. rewrite Ht, unload_requests_app, Hu. apply app_nil_r. }
      destruct (fst (load_fresh ext n true s)) as [[]|e3].
      * destruct H as (model & Hc & -> & Hk). rewrite Hc, dict_get_set_same.
        cbn [fst snd]. split; [exact Hk|]. split; [exact Htr|].
        intros ? ? [= <-] _ [= <-]. reflexivity.
      * cbn [fst snd]. destruct H as (_ & Hk). split; [exact Hk|].
        split; [exact Htr|discriminate].
Qed.

(** The tokenizer of the instruct model in a fresh process, through the
    theorem. *)
Lemma tokenizer_only_keeps_runtime_witness :
  exists pair,
    fst (get_model no_environ ext_ok "instruct" true (initial_state None))
    = Return pair /\
    pair = (tokenizer_for "flan-alpaca-xl-ct2-int8"
              (tok_config_of ext_ok "flan-alpaca-xl-ct2-int8"), None).
Proof.
  destruct (tokenizer_only_keeps_runtime no_environ ext_ok "instruct"
              (initial_state None)) as (_ & _ & H).
  eexists. split; [reflexivity|].
  apply H; reflexivity.
Defined.

(** ** Model objects over sequences of calls *)

Section Shapes.

Variables (env : environ) (ext : externals) (model_name : string)
        (tokenizer_only : bool).

(** A request that returns went through a returning eviction pass and a
  returning load-or-reload step, and the state it leaves is the one that
  step left. *)
Lemma get_model_named_returns s budget pair :
fst (get_max_ram env s) = Return budget ->
fst (get_model_named env ext model_name tokenizer_only s) = Return pair ->
let p1 := eviction_pass ext model_name budget tokenizer_only s in
let p2 := load_or_reload ext model_name tokenizer_only (snd p1) in
fst p1 = Return tt /\ fst p2 = Return tt /\
snd (get_model_named env ext model_name tokenizer_only s) = snd p2 /\
dict_get model_name (modelcache (snd p2)) = Some pair.
Proof.
intros Hb. rewrite (get_model_named_run env ext model_name tokenizer_only s budget Hb).
cbv zeta.
destruct (fst (eviction_pass ext model_name budget tokenizer_only s)) as [[]|e1];
  [|discriminate].
destruct (fst (load_or_reload ext model_name tokenizer_only _)) as [[]|e2];
  [|discriminate].
destruct (dict_get model_name _) as [pair'|]; [|discriminate].
cbn [fst snd]. intros [= ->]. auto.
Qed.

(** What a request does to the cache and to the count of model objects. *)
Lemma get_model_named_shape s :
let s' := snd (get_model_named env ext model_name tokenizer_only s) in
(modelcache s' = modelcache s /\ next_id s' = next_id s) \/
(dict_get model_name (modelcache s) = None /\
 exists tk model,
   modelcache s' = dict_set model_name (tk, model) (modelcache s) /\
   match model with
   | None => next_id s' = next_id s
   | Some h => h_id h = next_id s /\ next_id s' = S (next_id s)
   end).
Proof.
cbv zeta.
destruct (fst (get_max_ram env s)) as [budget|e0] eqn:Hb.
2:{ rewrite (get_model_named_no_budget env ext model_name tokenizer_only s e0 Hb).
    left. auto. }
assert (Hsnd : snd (get_model_named env ext model_name tokenizer_only s)
               = snd (eviction_pass ext model_name budget tokenizer_only s) \/
               (fst (eviction_pass ext model_name budget tokenizer_only s) = Return tt /\
                snd (get_model_named env ext model_name tokenizer_only s)
                = snd (load_or_reload ext model_name tokenizer_only
                         (snd (eviction_pass ext model_name budget tokenizer_only s))))).
{ rewrite (get_model_named_run env ext model_name tokenizer_only s budget Hb).
  destruct (fst (eviction_pass ext model_name budget tokenizer_only s)) as [[]|e1];
    [|left; reflexivity].
  right. split; [reflexivity|]. cbv zeta.
  destruct (fst (load_or_reload ext model_name tokenizer_only _)) as [[]|e2];
    [|reflexivity].
  destruct (dict_get model_name _); reflexivity. }
destruct (eviction_pass_runtime ext model_name tokenizer_only budget s)
  as ((Hc & _) & Hn & _).
destruct Hsnd as [-> |[_ ->]]; [left; auto|].
set (s1 := snd (eviction_pass ext model_name budget tokenizer_only s)) in *.
rewrite (load_or_reload_run ext model_name tokenizer_only s1).
unfold dict_mem. rewrite Hc.
destruct (dict_get model_name (modelcache s)) as [pair|] eqn:Hg.
- left. destruct tokenizer_only; [cbn [snd]; auto|].
  destruct (quiet_reload ext model_name s1) as ((Hc2 & _) & _).
  destruct (reload_runtime ext model_name s1) as (Hn2 & _).
  rewrite Hc2, Hn2. auto.
- pose proof (load_fresh_run ext model_name tokenizer_only s1) as (_ & _ & H).
  destruct (fst (load_fresh ext model_name tokenizer_only s1)) as [[]|e2].
  + right. split; [reflexivity|].
    destruct H as (model & Hc2 & Hm). rewrite Hc in Hc2.
    eexists. exists model. split; [exact Hc2|].
    destruct tokenizer_only.
    * destruct Hm as (-> & Hk & _). congruence.
    * destruct Hm as (path & _ & -> & Hk & _). simpl. split; congruence.
  + left. destruct H as (Hc2 & Hk & _). split; congruence.
Qed.

End Shapes.

Lemma exec_handles_known c s : handles_known s -> handles_known (exec c s).
Proof.
  intros [Hlt Hinj].
  assert (Hsame : forall s', modelcache s' = modelcache s -> next_id s' = next_id s ->
                             handles_known s').
  { intros s' Hc Hn. split.
    - intros k t h. rewrite Hc, Hn. apply Hlt.
    - intros k1 k2 t1 t2 h1 h2. rewrite Hc. apply Hinj. }
  destruct c as [env ext model_type tokenizer_only|value|match_re]; simpl.
  - rewrite get_model_run.
    destruct (fst (resolve env model_type s)) as [n|e]; [|split; assumption].
    destruct (get_model_named_shape env ext n tokenizer_only s)
      as [[Hc Hn]|(Hnone & tk & model & Hc & Hm)]; [apply Hsame; assumption|].
    set (s' := snd (get_model_named env ext n tokenizer_only s)) in *.
    assert (Hold : forall k t h,
               dict_get k (modelcache s') = Some (t, Some h) ->
               (k = n /\ model = Some h) \/
               (k <> n /\ dict_get k (modelcache s) = Some (t, Some h))).
    { intros k t h. rewrite Hc. destruct (string_dec k n) as [->|Hk].
      - rewrite dict_get_set_same. intros [= _ ->]. auto.
      - rewrite dict_get_set_other by exact Hk. auto. }
    split.
    + intros k t h Hg. destruct (Hold k t h Hg) as [[_ ->]|[_ Hg']].
      * destruct Hm as (-> & ->). apply Nat.lt_succ_diag_r.
      * specialize (Hlt k t h Hg'). destruct model as [h0|].
        -- destruct Hm as (_ & ->). apply Nat.lt_lt_succ_r. exact Hlt.
        -- rewrite Hm. exact Hlt.
    + intros k1 k2 t1 t2 h1 h2 H1 H2 Hid.
      destruct (Hold k1 t1 h1 H1) as [[-> E1]|[N1 G1]],
               (Hold k2 t2 h2 H2) as [[-> E2]|[N2 G2]].
      * reflexivity.
      * exfalso. subst model. destruct Hm as (Hh & _).
        specialize (Hlt k2 t2 h2 G2). rewrite <- Hid, Hh in Hlt.
        exact (Nat.lt_irrefl _ Hlt).
      * exfalso. subst model. destruct Hm as (Hh & _).
        specialize (Hlt k1 t1 h1 G1). rewrite Hid, Hh in Hlt.
        exact (Nat.lt_irrefl _ Hlt).
      * exact (Hinj k1 k2 t1 t2 h1 h2 G1 G2 Hid).
  - rewrite set_max_ram_run.
    destruct (convert_to_gb value); [apply Hsame; reflexivity|split; assumption].
  - apply Hsame; reflexivity.
Qed.

Lemma run_handles_known cs s : handles_known s -> handles_known (run cs s).
Proof.
  revert s. induction cs as [|c cs IH]; intros s H; [exact H|].
  simpl. apply IH. apply exec_handles_known. exact H.
Qed.

Lemma initial_handles_known env_license : handles_known (initial_state env_license).
Proof. split; intros; discriminate. Qed.

Lemma dict_get_In_keys {V} k (v : V) d : dict_get k d = Some v -> In k (dict_keys d).
Proof.
  intros H. destruct (in_dec string_dec k (dict_keys d)) as [Hin|Hout]; [exact Hin|].
  apply dict_get_keys in Hout. congruence.
Qed.

(** X11: in a process that only called [get_model], [set_max_ram] and
    [require_model_license], once a full request under a budget below 4 has
    returned, no other cached model whose [unload_model] succeeds holds its
    weights: only the requested model can be resident among those that can
    be unloaded. *)
Theorem eviction_unloads_the_others
    (env_license : option Re.regex) (cs : list call)
    (env : environ) (ext : externals) (model_type model_name : string)
    (budget : float) (pair : cache_entry)
    (Hbudget : fst (get_max_ram env (run cs (initial_state env_license))) = Return budget)
    (Hname : fst (resolve env model_type (run cs (initial_state env_license)))
             = Return model_name)
    (Hsmall : (budget <? 4)%float = true)
    (Hret : fst (get_model env ext model_type false (run cs (initial_state env_license)))
            = Return pair) :
  forall key t h,
    key <> model_name ->
    dict_get key (modelcache (run cs (initial_state env_license))) = Some (t, Some h) ->
    ext_unload ext h = None ->
    is_resident h
      (snd (get_model env ext model_type false (run cs (initial_state env_license))))
    = false.
Proof.
  set (s := run cs (initial_state env_license)) in *.
  assert (Hk : handles_known s)
    by (apply run_handles_known, initial_handles_known).
  destruct Hk as [Hlt Hinj].
  intros key t h Hne Hget Hext. apply is_resident_not_In.
  rewrite get_model_run, Hname in *.
  destruct (get_model_named_returns env ext model_name false s budget pair Hbudget Hret)
    as (Hp1 & Hp2 & -> & _).
  cbv zeta in *.
  destruct (eviction_pass_runtime ext model_name false budget s)
    as ((Hc & _) & Hn & _).
  rewrite eviction_pass_run in *. unfold must_evict in *.
  rewrite Hsmall in *. cbn [andb negb] in *.
  pose proof (evict_unloaded ext model_name (dict_keys (modelcache s)) s Hp1
                key t h (dict_get_In_keys _ _ _ Hget) Hne Hget Hext) as Hout.
  set (s1 := snd (evict ext model_name (dict_keys (modelcache s)) s)) in *.
  rewrite (load_or_reload_run ext model_name false s1) in *.
  unfold dict_mem in *. rewrite Hc in *.
  destruct (dict_get model_name (modelcache s)) as [[tn hn]|] eqn:Hgn.
  - destruct (reload_runtime ext model_name s1) as (_ & _ & Hsome & Hnone).
    rewrite Hc in Hsome, Hnone.
    destruct hn as [hn|].
    + destruct (Hsome tn hn Hgn) as (_ & Hothers).
      intros Hin. apply Hout. apply Hothers; [|exact Hin].
      intros Hid. apply Hne. exact (Hinj key model_name t tn h hn Hget Hgn Hid).
    + destruct (Hnone tn Hgn) as (_ & ->). exact Hout.
  - pose proof (load_fresh_run ext model_name false s1) as (_ & _ & H).
    rewrite Hp2 in H. destruct H as (model & _ & path & _ & _ & _ & ->).
    intros [Hid|Hin]; [|exact (Hout Hin)].
    specialize (Hlt key t h Hget). rewrite <- Hn, Hid in Hlt.
    exact (Nat.lt_irrefl _ Hlt).
Qed.

(** The embedding model asked for after the instruct model, under the
    budget 0.4, through the theorem. *)
Lemma eviction_unloads_the_others_witness :
  is_resident {| h_id := 0; h_kind := Translator;
                 h_path := "/hub/jncraton/LaMini-Flan-T5-248M-ct2-int8" |}
    (snd (get_model no_environ ext_ok "embedding" false
            (run [call_set_max_ram (PFloat 0.4%float);
                  call_get_model no_environ ext_ok "instruct" false]
               (initial_state None))))
  = false.
Proof.
  apply (eviction_unloads_the_others None
           [call_set_max_ram (PFloat 0.4%float);
            call_get_model no_environ ext_ok "instruct" false]
           no_environ ext_ok "embedding" "all-MiniLM-L6-v2-ct2-int8" 0.4%float
           (tokenizer_for "all-MiniLM-L6-v2-ct2-int8" "",
            Some {| h_id := 1; h_kind := Encoder;
                    h_path := "/hub/jncraton/all-MiniLM-L6-v2-ct2-int8" |})
           eq_refl eq_refl eq_refl eq_refl
           "LaMini-Flan-T5-248M-ct2-int8"
           (tokenizer_for "LaMini-Flan-T5-248M-ct2-int8"
              (tok_config_of ext_ok "LaMini-Flan-T5-248M-ct2-int8")));
    [discriminate|reflexivity|reflexivity].
Defined.

(** ** Reloading and first loading *)

Lemma substring_prefix a b : substring 0 (String.length a) (a ++ b) = a.
Proof.
  induction a as [|c a IH]; simpl.
  - destruct b; reflexivity.
  - rewrite IH. reflexivity.
Qed.

Lemma length_append a b : String.length (a ++ b) = String.length a + String.length b.
Proof. induction a as [|c a IH]; simpl; congruence. Qed.

(** [path[:-10]] is the directory of a path that ends in [/model.bin]. *)
Lemma drop_last_model_bin dir : PyStr.drop_last 10 (dir ++ "/model.bin") = dir.
Proof.
  unfold PyStr.drop_last. rewrite length_append. simpl String.length.
  rewrite Nat.add_sub. apply substring_prefix.
Qed.

(** X12: a full request for a name cached with a model object whose
    [load_model] succeeds returns that same entry with the object resident
    again, and builds and fetches nothing: a model unloaded by an earlier
    eviction is reloaded, not rebuilt. *)
Theorem evicted_model_is_reloaded
    (env : environ) (ext : externals) (model_type model_name : string)
    (t : tokenizer) (h : handle) (s : state) (pair : cache_entry)
    (Hname : fst (resolve env model_type s) = Return model_name)
    (Hcached : dict_get model_name (modelcache s) = Some (t, Some h))
    (Hload : ext_load ext h = None)
    (Hret : fst (get_model env ext model_type false s) = Return pair) :
  let s' := snd (get_model env ext model_type false s) in
  pair = (t, Some h) /\ is_resident h s' = true /\
  next_id s' = next_id s /\ fetches (trace s') = fetches (trace s) /\
  modelcache s' = modelcache s.
Proof.
  cbv zeta. rewrite get_model_run, Hname in *.
  assert (Hmem : dict_mem model_name (modelcache s) = true)
    by (unfold dict_mem; rewrite Hcached; reflexivity).
  destruct (get_model_named_hit env ext model_name false s Hmem)
    as (Hc & Hf & Hn & Hpair).
  specialize (Hpair pair Hret). rewrite Hcached in Hpair.
  split; [congruence|]. split; [|auto].
  destruct (fst (get_max_ram env s)) as [budget|e0] eqn:Hb.
  2:{ rewrite (get_model_named_no_budget env ext model_name false s e0 Hb) in Hret.
      discriminate Hret. }
  destruct (get_model_named_returns env ext model_name false s budget pair Hb Hret)
    as (_ & _ & -> & _).
  cbv zeta.
  destruct (eviction_pass_runtime ext model_name false budget s) as ((Hc1 & _) & _).
  set (s1 := snd (eviction_pass ext model_name budget false s)) in *.
  rewrite (load_or_reload_run ext model_name false s1).
  rewrite Hc1, Hmem.
  destruct (reload_runtime ext model_name s1) as (_ & _ & Hsome & _).
  rewrite Hc1 in Hsome. destruct (Hsome t h Hcached) as (Hin & _).
  apply is_resident_In. apply Hin. exact Hload.
Qed.

(** The instruct model asked for again after the embedding model evicted
    it, through the theorem. *)
Lemma evicted_model_is_reloaded_witness :
  let s := snd (get_model no_environ ext_ok "embedding" false state_instruct_loaded) in
  is_resident {| h_id := 0; h_kind := Translator;
                 h_path := "/hub/jncraton/LaMini-Flan-T5-248M-ct2-int8" |} s = false /\
  is_resident {| h_id := 0; h_kind := Translator;
                 h_path := "/hub/jncraton/LaMini-Flan-T5-248M-ct2-int8" |}
    (snd (get_model no_environ ext_offline "instruct" false s)) = true.
Proof.
  cbv zeta. split; [vm_compute; reflexivity|].
  eapply (evicted_model_is_reloaded no_environ ext_offline "instruct"
            "LaMini-Flan-T5-248M-ct2-int8"); vm_compute; reflexivity.
Defined.

(** X13: a full request for a name that is not cached, when it returns, has
    appended one entry under that name: the tokenizer of the branch taken
    and a model object built just now, of the class of the branch, from the
    directory of the downloaded [model.bin], and resident. *)
Theorem first_full_request
    (env : environ) (ext : externals) (model_type model_name : string)
    (s : state) (pair : cache_entry)
    (Hname : fst (resolve env model_type s) = Return model_name)
    (Hmiss : dict_mem model_name (modelcache s) = false)
    (Hret : fst (get_model env ext model_type false s) = Return pair) :
  let s' := snd (get_model env ext model_type false s) in
  exists path h,
    ext_download ext ("jncraton/" ++ model_name) "model.bin" = Return path /\
    h = {| h_id := next_id s; h_kind := dispatch model_name;
           h_path := PyStr.drop_last 10 path |} /\
    (forall dir, path = (dir ++ "/model.bin")%string -> h_path h = dir) /\
    pair = (tokenizer_for model_name (tok_config_of ext model_name), Some h) /\
    modelcache s' = modelcache s ++ [(model_name, pair)] /\
    is_resident h s' = true /\ next_id s' = S (next_id s).
Proof.
  cbv zeta. rewrite get_model_run, Hname in *.
  destruct (fst (get_max_ram env s)) as [budget|e0] eqn:Hb.
  2:{ rewrite (get_model_named_no_budget env ext model_name false s e0 Hb) in Hret.
      discriminate Hret. }
  destruct (get_model_named_returns env ext model_name false s budget pair Hb Hret)
    as (_ & Hp2 & -> & Hget).
  cbv zeta in *.
  destruct (eviction_pass_runtime ext model_name false budget s)
    as ((Hc1 & _) & Hn1 & _).
  set (s1 := snd (eviction_pass ext model_name budget false s)) in *.
  rewrite (load_or_reload_run ext model_name false s1) in *.
  rewrite Hc1, Hmiss in *.
  pose proof (load_fresh_run ext model_name false s1) as (_ & _ & H).
  rewrite Hp2 in H. destruct H as (model & Hc & path & Hd & -> & Hn & Hr).
  rewrite Hc, dict_get_set_same in Hget. injection Hget as <-.
  exists path. eexists. split; [exact Hd|]. split; [reflexivity|].
  rewrite Hn1 in *. split; [|split; [reflexivity|split; [|split]]].
  - intros dir ->. apply drop_last_model_bin.
  - rewrite Hc, Hc1. apply dict_mem_false in Hmiss. clear - Hmiss.
    induction (modelcache s) as [|[k v] d IH]; [reflexivity|].
    simpl in *. destruct (String.eqb model_name k); [discriminate|].
    rewrite (IH Hmiss). reflexivity.
  - apply is_resident_In. rewrite Hr. left. reflexivity.
  - exact Hn.
Qed.

(** The embedding model asked for after the instruct model, through the
    theorem. *)
Lemma first_full_request_witness :
  let s' := snd (get_model no_environ ext_ok "embedding" false state_instruct_loaded) in
  exists path h,
    ext_download ext_ok "jncraton/all-MiniLM-L6-v2-ct2-int8" "model.bin" = Return path /\
    h = {| h_id := 1; h_kind := Encoder; h_path := PyStr.drop_last 10 path |} /\
    (forall dir, path = (dir ++ "/model.bin")%string -> h_path h = dir) /\
    fst (get_model no_environ ext_ok "embedding" false state_instruct_loaded)
    = Return (tokenizer_for "all-MiniLM-L6-v2-ct2-int8"
                (tok_config_of ext_ok "all-MiniLM-L6-v2-ct2-int8"), Some h) /\
    is_resident h s' = true.
Proof.
  cbv zeta.
  destruct (first_full_request no_environ ext_ok "embedding"
              "all-MiniLM-L6-v2-ct2-int8" state_instruct_loaded
              (tokenizer_for "all-MiniLM-L6-v2-ct2-int8"
                 (tok_config_of ext_ok "all-MiniLM-L6-v2-ct2-int8"),
               Some {| h_id := 1; h_kind := Encoder;
                       h_path := "/hub/jncraton/all-MiniLM-L6-v2-ct2-int8" |})
              eq_refl eq_refl eq_refl)
    as (path & h & Hd & Hh & Hdir & Hp & _ & Hres & _).
  exists path, h.
  split; [exact Hd|]. split; [exact Hh|]. split; [exact Hdir|].
  split; [rewrite <- Hp; reflexivity|exact Hres].
Defined.

(** ** Requiring a license *)

(** X14: after [require_model_license(r)], with no pinned name, every pair
    [get_model] returns is the entry of a descriptor of the list of the
    requested purpose whose license matches [r]; the call replaces any
    earlier filter and leaves the cache and the budget alone.  A pinned
    instruct model is returned without that check. *)
Theorem required_license_is_enforced
    (env : environ) (ext : externals) (model_type : string) (tokenizer_only : bool)
    (r : Re.regex) (s : state) (pair : cache_entry)
    (Hpin : env pinned_name = None)
    (Hret : fst (get_model env ext model_type tokenizer_only
                   (snd (require_model_license (Some r) s))) = Return pair) :
  let s1 := snd (require_model_license (Some r) s) in
  let s' := snd (get_model env ext model_type tokenizer_only s1) in
  license_match s1 = Some r /\ modelcache s1 = modelcache s /\
  max_ram s1 = max_ram s /\
  (exists d, In d models /\ tuning d = model_type /\
             Re.re_match r (license d) = true /\
             dict_get (name d) (modelcache s') = Some pair) /\
  (forall p budget, p <> ""%string ->
     get_model_name (environ_with pinned_name p) "instruct" budget (Some r)
     = Return p).
Proof.
  cbv zeta. split; [reflexivity|]. split; [reflexivity|]. split; [reflexivity|].
  split.
  - set (s1 := snd (require_model_license (Some r) s)) in *.
    rewrite get_model_run in *.
    destruct (fst (resolve env model_type s1)) as [n|e] eqn:Hres; [|discriminate Hret].
    destruct (get_model_named_cache env ext n tokenizer_only s1) as (_ & Hentry).
    specialize (Hentry pair Hret).
    assert (Hsel : exists budget,
               get_model_name env model_type budget (Some r) = Return n).
    { revert Hres. unfold resolve. rewrite bind_run.
      destruct (fst (get_max_ram env s1)) as [budget|e0]; [|discriminate].
      rewrite bind_run. unfold gets, lift. cbn [fst snd].
      rewrite get_max_ram_pure. intros H. exists budget. exact H. }
    destruct Hsel as (budget & Hsel). rewrite pin_absent in Hsel by assumption.
    destruct (scan_models_outcome model_type budget (Some r) models models_int8)
      as [(d & Hin & Hs & Hr)|[_ Hr]]; rewrite Hr in Hsel; [|discriminate Hsel].
    injection Hsel as <-.
    apply selectable_satisfies in Hs. destruct Hs as (Ht & _ & Hl).
    exists d. auto.
  - intros p budget Hp. unfold get_model_name, environ_with, pinned_name.
    rewrite String.eqb_refl. unfold str_truthy.
    destruct (String.eqb_spec p ""); [contradiction|]. reflexivity.
Qed.

(** The license [mit] under the budget of a fresh process, through the
    theorem. *)
Lemma required_license_is_enforced_witness :
  exists d, In d models /\ tuning d = "instruct" /\
            Re.re_match (Re.Cat (Re.Cat (Re.Chr "m") (Re.Chr "i")) (Re.Chr "t"))
              (license d) = true /\
            dict_get (name d)
              (modelcache
                 (snd (get_model no_environ ext_ok "instruct" true
                         (snd (require_model_license
                                 (Some (Re.Cat (Re.Cat (Re.Chr "m") (Re.Chr "i"))
                                          (Re.Chr "t")))
                                 (initial_state None))))))
            = Some (tokenizer_for "LaMini-GPT-774M-ct2-int8" "", None).
Proof.
  apply (required_license_is_enforced no_environ ext_ok "instruct" true
           (Re.Cat (Re.Cat (Re.Chr "m") (Re.Chr "i")) (Re.Chr "t"))
           (initial_state None)
           (tokenizer_for "LaMini-GPT-774M-ct2-int8" "", None));
    vm_compute; reflexivity.
Defined.

(** ** The prompt of [chat] *)

Lemma append_cancel_l a b c : (a ++ b = a ++ c)%string -> b = c.
Proof. induction a as [|x a IH]; simpl; [auto|]. intros [= H]. auto. Qed.

Lemma append_length_cancel_r a b c :
  (a ++ c = b ++ c)%string -> a = b.
Proof.
  revert b. induction a as [|x a IH]; intros b H.
  - destruct b as [|y b]; [reflexivity|].
    apply (f_equal String.length) in H. rewrite length_append in H.
    simpl in H. rewrite length_append in H. lia.
  - destruct b as [|y b].
    + apply (f_equal String.length) in H. simpl in H.
      rewrite length_append in H. lia.
    + simpl in H. injection H as -> H. f_equal. apply IH. exact H.
Qed.

Lemma substring_skip a b n :
  substring (String.length a) n (a ++ b) = substring 0 n b.
Proof. induction a as [|x a IH]; simpl; [reflexivity|exact IH]. Qed.

(** X15: the prompt [chat] hands to the tokenizer is the fixed two-line
    header, the user's text as given, and the line ["Agent: "]: the text
    can be read back from its place after the 71 characters of the header,
    so two different texts never give the same prompt; with a model that
    answers its input, [chat] returns that prompt. *)
Theorem chat_prompt_keeps_user_text (userprompt : string) :
  String.length (chat_prompt userprompt) = 79 + String.length userprompt /\
  substring 71 (String.length userprompt) (chat_prompt userprompt) = userprompt /\
  (forall other, chat_prompt other = chat_prompt userprompt -> other = userprompt) /\
  chat echo_model userprompt = Return (chat_prompt userprompt).
Proof.
  unfold chat_prompt. split; [|split; [|split]].
  - rewrite !length_append. simpl. lia.
  - change 71 with (String.length chat_header).
    rewrite substring_skip. apply substring_prefix.
  - intros other H. apply append_cancel_l in H.
    apply append_length_cancel_r in H. exact H.
  - reflexivity.
Qed.

(** ** Eviction comes first *)

Lemma evict_trace ext model_name keys s :
  exists evs,
    trace (snd (evict ext model_name keys s)) = trace s ++ evs /\ fetches evs = [].
Proof.
  revert s. induction keys as [|key rest IH]; intros s.
  - exists []. simpl. rewrite app_nil_r. auto.
  - rewrite evict_cons. destruct (negb (String.eqb key model_name)); [|apply IH].
    assert (Hstep : exists evs,
               trace (snd (except_AttributeError (unload_model ext key) s))
               = trace s ++ evs /\ fetches evs = []).
    { unfold except_AttributeError. rewrite unload_model_run.
      destruct (dict_get key (modelcache s)) as [[t [h|]]|].
      - cbv zeta. exists [UnloadModel key (Some h)].
        destruct (ext_unload ext h) as [[]|]; simpl; auto.
      - exists [UnloadModel key None]. simpl. auto.
      - exists []. simpl. rewrite app_nil_r. auto. }
    destruct Hstep as (ev1 & Ht1 & Hf1).
    destruct (fst (except_AttributeError (unload_model ext key) s)).
    + destruct (IH (snd (except_AttributeError (unload_model ext key) s)))
        as (ev2 & Ht2 & Hf2).
      exists (ev1 ++ ev2). rewrite Ht2, Ht1, app_assoc, fetches_app, Hf1, Hf2. auto.
    + exists ev1. auto.
Qed.

(** X16: within one [get_model] call every unload is asked before anything
    is fetched, read or built: the calls it adds to the trace are a run of
    unload requests followed by a run without any, whether the call returns
    or raises. *)
Theorem eviction_comes_first
    (env : environ) (ext : externals) (model_type : string) (tokenizer_only : bool)
    (s : state) :
  exists unloads rest,
    trace (snd (get_model env ext model_type tokenizer_only s))
    = trace s ++ unloads ++ rest /\
    fetches unloads = [] /\ unload_requests rest = [].
Proof.
  rewrite get_model_run.
  destruct (fst (resolve env model_type s)) as [n|e0].
  2:{ exists [], []. simpl. rewrite app_nil_r. auto. }
  destruct (fst (get_max_ram env s)) as [budget|e1] eqn:Hb.
  2:{ rewrite (get_model_named_no_budget env ext n tokenizer_only s e1 Hb).
      exists [], []. simpl. rewrite app_nil_r. auto. }
  destruct (get_model_named_unloads env ext n tokenizer_only s budget Hb)
    as (rest & Ht & Hu).
  assert (Hpass : exists unloads,
             trace (snd (eviction_pass ext n budget tokenizer_only s))
             = trace s ++ unloads /\ fetches unloads = []).
  { rewrite eviction_pass_run. destruct (must_evict budget tokenizer_only).
    - apply evict_trace.
    - exists []. simpl. rewrite app_nil_r. auto. }
  destruct Hpass as (unloads & Ht1 & Hf).
  exists unloads, rest. rewrite Ht, Ht1, app_assoc. auto.
Qed.

(** ** Selection with the filter as a string *)

Section StringFilter.

Variables (model_type : string) (max_ram : float).







End StringFilter.





(** ** Eviction and reload *)






